(** * Mobile external-API middleware of jitsi-meet

    A shallow embedding of
    [react/features/mobile/external-api/middleware.js]: the Redux middleware
    which turns conference and configuration actions into events for the
    native [ExternalAPI] module, together with its helpers [_toErrorString],
    [_getSymbolDescription], [_sendConferenceEvent] and [_sendEvent].

    JavaScript values are modelled by an inductive type, objects by
    association lists in insertion order, exceptions by an explicit
    completion type, and the two observable effects of the middleware (the
    call of [next] and the call of [NativeModules.ExternalAPI.sendEvent]) by
    a trace. *)

From Stdlib Require Import ZArith List String Ascii Bool Arith Lia.
From Stdlib Require Import DecimalString.
Import ListNotations.
Local Open Scope string_scope.

(** ** JavaScript values *)

Module JS.

(** A symbol is identified by [sym_id]. [sym_toString] is what
    [symbol.toString()] returns: ["Symbol(" ++ description ++ ")"] for a
    native symbol, and the description prefixed by ["@@"] for the es6-symbol
    polyfill mentioned in the source. *)
Record symbol : Type := mkSymbol { sym_id : nat; sym_toString : string }.

Definition native_symbol (id : nat) (description : string) : symbol :=
  mkSymbol id ("Symbol(" ++ description ++ ")").

Definition polyfill_symbol (id : nat) (description : string) : symbol :=
  mkSymbol id ("@@" ++ description).

Definition symbol_eqb (a b : symbol) : bool :=
  Nat.eqb (sym_id a) (sym_id b) && String.eqb (sym_toString a) (sym_toString b).

(** Property keys are strings or symbols. *)
Inductive key : Type :=
| KStr (s : string)
| KSym (s : symbol).

Definition key_eqb (a b : key) : bool :=
  match a, b with
  | KStr x, KStr y => String.eqb x y
  | KSym x, KSym y => symbol_eqb x y
  | _, _ => false
  end.

#[local] Set Warnings "-register-all".

(** Values. [VNum n] stands for an integer-valued Number in the range where
    JavaScript prints it in plain decimal. [VObj props] is an object seen
    through its properties: for the action (the only object that is spread
    or destructured with a rest pattern) these are its own enumerable
    properties in insertion order; for error and conference objects (which
    are only read) they are the properties visible to a property read. *)
Inductive value : Type :=
| VUndefined
| VNull
| VBool (b : bool)
| VNum (n : Z)
| VStr (s : string)
| VSym (s : symbol)
| VObj (props : list (key * value)).

Definition object : Type := list (key * value).

(** Exceptions: the [TypeError]s raised by the language itself, and whatever
    a user-defined conversion method throws. *)
Inductive exn : Type :=
| TypeError
| Thrown (v : value).

Inductive completion (A : Type) : Type :=
| Normal (a : A)
| Throw (e : exn).
Arguments Normal {A} a.
Arguments Throw {A} e.

Definition cbind {A B} (c : completion A) (f : A -> completion B) : completion B :=
  match c with
  | Normal a => f a
  | Throw e => Throw e
  end.

(** *** Objects as association lists *)

Fixpoint obj_lookup (o : object) (k : key) : option value :=
  match o with
  | [] => None
  | (k', v) :: o' => if key_eqb k k' then Some v else obj_lookup o' k
  end.

(** [o[k]] on an object: a missing property reads as [undefined]. *)
Definition obj_get (o : object) (k : key) : value :=
  match obj_lookup o k with
  | Some v => v
  | None => VUndefined
  end.

(** The rest pattern [{ k, ...rest } = o] leaves out [k]. *)
Definition obj_remove (k : key) (o : object) : object :=
  filter (fun kv => negb (key_eqb k (fst kv))) o.

(** [o[k] = v]: an existing property keeps its place, a new one is
    appended. *)
Fixpoint obj_set (o : object) (k : key) (v : value) : object :=
  match o with
  | [] => [(k, v)]
  | (k', v') :: o' =>
      if key_eqb k k' then (k, v) :: o' else (k', v') :: obj_set o' k v
  end.

(** [{ ...target, ...src }]: the properties of [src] are defined on
    [target] one after the other. The list keeps the order of insertion;
    the place JavaScript gives to integer-like keys is not modelled, and
    the statements below read objects by key, not by position. *)
Definition spread (target src : object) : object :=
  fold_left (fun acc kv => obj_set acc (fst kv) (snd kv)) src target.

(** *** Conversions and property reads *)

Definition ToBoolean (v : value) : bool :=
  match v with
  | VUndefined | VNull => false
  | VBool b => b
  | VNum n => negb (n =? 0)%Z
  | VStr s => negb (s =? "")
  | VSym _ | VObj _ => true
  end.

Definition NumberToString (n : Z) : string :=
  NilZero.string_of_int (Z.to_int n).

(** [v[k]] for a value that is neither [undefined] nor [null]. A primitive
    is looked up on its wrapper prototype, which has none of the properties
    this module reads. *)
Definition GetV (v : value) (k : key) : value :=
  match v with
  | VObj o => obj_get o k
  | _ => VUndefined
  end.

(** [v[k]], and the destructuring [{ k } = v]: both throw a [TypeError] on
    [undefined] and [null]. *)
Definition Get (v : value) (k : key) : completion value :=
  match v with
  | VUndefined | VNull => Throw TypeError
  | _ => Normal (GetV v k)
  end.

(** *** Strings *)

Definition startsWith (s p : string) : bool := String.prefix p s.

Definition endsWith (s p : string) : bool :=
  (String.length p <=? String.length s)%nat
  && String.eqb (substring (String.length s - String.length p) (String.length p) s) p.

(** Relative index of [String.prototype.slice]: negative indices count from
    the end, and everything is clamped to [0 .. len]. *)
Definition clamp_index (len i : Z) : Z :=
  if (i <? 0)%Z then Z.max (len + i) 0 else Z.min i len.

(** [s.slice(start, end)]; [None] for an omitted [end]. *)
Definition slice (s : string) (start : Z) (end_ : option Z) : string :=
  let len := Z.of_nat (String.length s) in
  let from := clamp_index len start in
  let to := match end_ with Some e => clamp_index len e | None => len end in
  substring (Z.to_nat from) (Z.to_nat (Z.max (to - from) 0)) s.

Section Runtime.

(** The string conversion of an object goes through its own [toString]
    method, which is user code: it returns a string or throws. *)
Variable ObjectToString : object -> completion string.

(** The abstract operation ToString. *)
Definition ToString (v : value) : completion string :=
  match v with
  | VUndefined => Normal "undefined"
  | VNull => Normal "null"
  | VBool true => Normal "true"
  | VBool false => Normal "false"
  | VNum n => Normal (NumberToString n)
  | VStr s => Normal s
  | VSym _ => Throw TypeError
  | VObj o => ObjectToString o
  end.

(** The method call [v.toString()]. *)
Definition call_toString (v : value) : completion string :=
  match v with
  | VUndefined | VNull => Throw TypeError
  | VSym s => Normal (sym_toString s)
  | _ => ToString v
  end.

(** [Error.prototype.toString.apply(this)] (ECMA-262, 20.5.3.4): a
    [TypeError] unless [this] is an object; [name] defaults to ["Error"]
    and [message] to [""]; an empty part is left out together with the
    separator. *)
Definition Error_prototype_toString (this : value) : completion string :=
  match this with
  | VObj o =>
      cbind (match obj_get o (KStr "name") with
             | VUndefined => Normal "Error"
             | n => ToString n
             end) (fun name =>
      cbind (match obj_get o (KStr "message") with
             | VUndefined => Normal ""
             | m => ToString m
             end) (fun msg =>
      if name =? "" then Normal msg
      else if msg =? "" then Normal name
      else Normal (name ++ ": " ++ msg)))
  | _ => Throw TypeError
  end.

End Runtime.

End JS.

Import JS.

(** ** The helpers of the middleware *)

Section Helpers.

Variable ObjectToString : object -> completion string.

(** [_toErrorString(error)]. *)
Definition _toErrorString (error : value) : completion string :=
  if ToBoolean error
  then match error with
       | VStr s => Normal s
       | _ => Error_prototype_toString ObjectToString error
       end
  else Normal "".

(** The body of [_getSymbolDescription] after [symbol.toString()]. *)
Definition strip_description (description : string) : string :=
  let description :=
    if startsWith description "Symbol(" && endsWith description ")"
    then slice description 7 (Some (-1)%Z)
    else description in
  if startsWith description "@@"
  then slice description 2 None
  else description.

(** [_getSymbolDescription(symbol)]. *)
Definition _getSymbolDescription (symbol : value) : completion string :=
  cbind (call_toString ObjectToString symbol) (fun description =>
  Normal (strip_description description)).

End Helpers.

(** ** Effects: the trace of calls and the completion *)

(** What the middleware does to the outside: it calls [next], and it calls
    [NativeModules.ExternalAPI.sendEvent(name, data, scope)]. A call is
    recorded when it is made. Both callees are outside this file and are
    taken to return: an exception of the native side, which the middleware
    would let through, is not modelled, so a [Throw] below is always one of
    the middleware itself. *)
Inductive effect : Type :=
| NextCall (action : object)
| HostSend (name : string) (data : object) (scope : value).

Definition M (A : Type) : Type := (list effect * completion A)%type.

Definition ret {A} (a : A) : M A := ([], Normal a).

Definition bind {A B} (m : M A) (f : A -> M B) : M B :=
  match m with
  | (t, Normal a) => let (t', r) := f a in ((t ++ t')%list, r)
  | (t, Throw e) => (t, Throw e)
  end.

Definition tell (e : effect) : M unit := ([e], Normal tt).

Definition lift {A} (c : completion A) : M A := ([], c).

Declare Scope js_scope.
Delimit Scope js_scope with js.
Notation "x <- m ;; k" := (bind m (fun x => k))
  (at level 61, m at next level, right associativity) : js_scope.
Notation "m ;; k" := (bind m (fun _ => k))
  (at level 61, right associativity) : js_scope.
Local Open Scope js_scope.

Definition trace {A} (m : M A) : list effect := fst m.
Definition outcome {A} (m : M A) : completion A := snd m.

Definition is_send (e : effect) : bool :=
  match e with HostSend _ _ _ => true | NextCall _ => false end.

(** The calls of the native [sendEvent] in a trace. *)
Definition host_sends (t : list effect) : list effect := filter is_send t.

(** The Redux store, as far as the middleware uses it: [getState()] at the
    time the event is sent, which is after [next] has run. *)
Record Store : Type := mkStore { getState : value }.

(** ** The middleware *)

Section Middleware.

(** The action types and the key under which a conference holds its URL
    are constants of [base/conference] and [base/config]; [toURLString]
    is a function of [base/util] which returns a string or nothing. *)
Variables CONFERENCE_FAILED CONFERENCE_JOINED CONFERENCE_LEFT
          CONFERENCE_WILL_JOIN CONFERENCE_WILL_LEAVE
          LOAD_CONFIG_ERROR : symbol.
Variable JITSI_CONFERENCE_URL_KEY : key.
Variable toURLString : value -> value.
Variable ObjectToString : object -> completion string.

(** [v === c] for a symbol constant [c]. *)
Definition is_type (v : value) (c : symbol) : bool :=
  match v with
  | VSym s => symbol_eqb s c
  | _ => false
  end.

(** [_sendEvent({ getState }, name, data)]. *)
Definition _sendEvent (store : Store) (name : string) (data : object) : M unit :=
  features_app <- lift (Get (getState store) (KStr "features/app")) ;;
  app <- lift (Get features_app (KStr "app")) ;;
  if ToBoolean app then
    props <- lift (Get app (KStr "props")) ;;
    externalAPIScope <- lift (Get props (KStr "externalAPIScope")) ;;
    if ToBoolean externalAPIScope
    then tell (HostSend name data externalAPIScope)
    else ret tt
  else ret tt.

(** [_sendConferenceEvent(store, { conference, type, ...data })]. *)
Definition _sendConferenceEvent (store : Store) (action : object) : M unit :=
  let conference := obj_get action (KStr "conference") in
  let type := obj_get action (KStr "type") in
  let data := obj_remove (KStr "type") (obj_remove (KStr "conference") action) in
  data <- (if ToBoolean conference
           then url <- lift (Get conference JITSI_CONFERENCE_URL_KEY) ;;
                ret (obj_set data (KStr "url") (toURLString url))
           else ret data) ;;
  name <- lift (_getSymbolDescription ObjectToString type) ;;
  _sendEvent store name data.

(** The [switch (action.type)] statement of the middleware. *)
Definition switch_type (store : Store) (action : object) : M unit :=
  let type := obj_get action (KStr "type") in
  if is_type type CONFERENCE_FAILED then
    let error := obj_get action (KStr "error") in
    let data := obj_remove (KStr "error") action in
    recoverable <- lift (Get error (KStr "recoverable")) ;;
    if negb (ToBoolean recoverable) then
      s <- lift (_toErrorString ObjectToString error) ;;
      _sendConferenceEvent store (spread [(KStr "error", VStr s)] data)
    else ret tt
  else if is_type type CONFERENCE_JOINED
          || is_type type CONFERENCE_LEFT
          || is_type type CONFERENCE_WILL_JOIN
          || is_type type CONFERENCE_WILL_LEAVE then
    _sendConferenceEvent store action
  else if is_type type LOAD_CONFIG_ERROR then
    let error := obj_get action (KStr "error") in
    let locationURL := obj_get action (KStr "locationURL") in
    name <- lift (_getSymbolDescription ObjectToString type) ;;
    s <- lift (_toErrorString ObjectToString error) ;;
    _sendEvent store name
               [(KStr "error", VStr s); (KStr "url", toURLString locationURL)]
  else ret tt.

(** The function registered with [MiddlewareRegistry]:
    [store => next => action => { const result = next(action); switch ...;
    return result; }]. *)
Definition middleware (store : Store) (next : object -> value)
           (action : object) : M value :=
  tell (NextCall action) ;;
  let result := next action in
  switch_type store action ;;
  ret result.

End Middleware.

(** ** An instance of the imports

    The constants as [base/conference] and [base/config] declare them
    (symbols described by their own names), a [toURLString] that returns a
    string as it is, and objects that print as plain objects do. It is used
    to run the middleware on concrete actions. *)

Module Sample.

Definition CONFERENCE_FAILED : symbol := native_symbol 1 "CONFERENCE_FAILED".
Definition CONFERENCE_JOINED : symbol := native_symbol 2 "CONFERENCE_JOINED".
Definition CONFERENCE_LEFT : symbol := native_symbol 3 "CONFERENCE_LEFT".
Definition CONFERENCE_WILL_JOIN : symbol := native_symbol 4 "CONFERENCE_WILL_JOIN".
Definition CONFERENCE_WILL_LEAVE : symbol := native_symbol 5 "CONFERENCE_WILL_LEAVE".
Definition LOAD_CONFIG_ERROR : symbol := native_symbol 6 "LOAD_CONFIG_ERROR".
Definition JITSI_CONFERENCE_URL_KEY : key := KSym (native_symbol 7 "url").

Definition toURLString (v : value) : value :=
  match v with
  | VStr s => VStr s
  | _ => VUndefined
  end.

Definition ObjectToString (o : object) : completion string :=
  Normal "[object Object]".

(** A store whose mounted app has the given [externalAPIScope]. *)
Definition mounted_store (scope : value) : Store :=
  mkStore (VObj [(KStr "features/app",
                  VObj [(KStr "app",
                         VObj [(KStr "props",
                                VObj [(KStr "externalAPIScope", scope)])])])]).

(** A store with no app mounted. *)
Definition idle_store : Store :=
  mkStore (VObj [(KStr "features/app", VObj [])]).

(** The innermost [next] of Redux returns the action. *)
Definition next (action : object) : value := VObj action.

(** Actions. *)

Definition room : value :=
  VObj [(JITSI_CONFERENCE_URL_KEY, VStr "https://example.com/room")].

Definition failed_flag_on_action : object :=
  [(KStr "type", VSym CONFERENCE_FAILED);
   (KStr "error", VStr "boom");
   (KStr "recoverable", VBool true)].

Definition password_required : value :=
  VObj [(KStr "name", VStr "conference.passwordRequired");
        (KStr "recoverable", VBool true)].

Definition failed_recoverable : object :=
  [(KStr "type", VSym CONFERENCE_FAILED);
   (KStr "error", password_required);
   (KStr "conference", room)].

Definition failed_in_room : object :=
  [(KStr "type", VSym CONFERENCE_FAILED);
   (KStr "error", VStr "boom");
   (KStr "recoverable", VBool false);
   (KStr "conference", room)].

Definition failed_without_error : object :=
  [(KStr "type", VSym CONFERENCE_FAILED)].

Definition joined : object :=
  [(KStr "type", VSym CONFERENCE_JOINED); (KStr "conference", room)].

Definition left_with_url : object :=
  [(KStr "type", VSym CONFERENCE_LEFT); (KStr "url", VStr "https://example.com/old")].

Definition joined_with_handles : object :=
  [(KStr "type", VSym CONFERENCE_JOINED);
   (KStr "track", VObj [(KStr "muted", VBool false)]);
   (KStr "reason", VSym (native_symbol 8 "reason"))].

Definition unrelated : object :=
  [(KStr "type", VSym (native_symbol 10 "SET_ROOM")); (KStr "room", VStr "lobby")].

(** A configuration failure, with the symbol [tag] as its [type]. *)
Definition config_failed (tag : symbol) : object :=
  [(KStr "type", VSym tag);
   (KStr "error", VStr "network down");
   (KStr "locationURL", VStr "http://cfg/x.json")].

(** The same with a second symbol under the key ["kind"]. *)
Definition config_failed_tagged (tag inner : symbol) : object :=
  [(KStr "type", VSym tag);
   (KStr "kind", VSym inner);
   (KStr "error", VStr "network down");
   (KStr "locationURL", VStr "http://cfg/x.json")].

Definition CONFIG_FETCH_ERROR : symbol := native_symbol 9 "config.fetch.error".

(** The middleware over these imports. The type of configuration errors is
    left open, to look at it under more than one description. *)
Definition run (load_config_error : symbol) :
  Store -> (object -> value) -> object -> M value :=
  middleware CONFERENCE_FAILED CONFERENCE_JOINED CONFERENCE_LEFT
             CONFERENCE_WILL_JOIN CONFERENCE_WILL_LEAVE load_config_error
             JITSI_CONFERENCE_URL_KEY toURLString ObjectToString.

End Sample.

(** ** Vocabulary of the statements *)

Fixpoint has_key (o : object) (k : key) : bool :=
  match o with
  | [] => false
  | (k', _) :: o' => key_eqb k k' || has_key o' k
  end.

(** The keys of an association list are pairwise distinct, as the
    properties of an object are. *)
Fixpoint wf_object (o : object) : bool :=
  match o with
  | [] => true
  | (k, _) :: o' => negb (has_key o' k) && wf_object o'
  end.

(** A value that can cross to the native side: a primitive other than a
    symbol, or nothing. *)
Definition serializable (v : value) : bool :=
  match v with
  | VSym _ | VObj _ => false
  | _ => true
  end.

(** [sub] occurs in [s]. *)
Definition contains (s sub : string) : Prop :=
  exists pre post, s = pre ++ sub ++ post.

(** The state has an app mounted whose props carry the truthy
    [externalAPIScope] [scope]. *)
Definition mounted (store : Store) (scope : value) : Prop :=
  exists features_app app props,
    Get (getState store) (KStr "features/app") = Normal features_app
    /\ Get features_app (KStr "app") = Normal app
    /\ ToBoolean app = true
    /\ Get app (KStr "props") = Normal props
    /\ Get props (KStr "externalAPIScope") = Normal scope
    /\ ToBoolean scope = true.

(** No app is mounted: the ['features/app'] slice has no truthy [app]. *)
Definition unmounted (store : Store) : Prop :=
  exists features_app app,
    Get (getState store) (KStr "features/app") = Normal features_app
    /\ Get features_app (KStr "app") = Normal app
    /\ ToBoolean app = false.

(** An app is mounted, and its props have no truthy [externalAPIScope]. *)
Definition scopeless (store : Store) : Prop :=
  exists features_app app props scope,
    Get (getState store) (KStr "features/app") = Normal features_app
    /\ Get features_app (KStr "app") = Normal app
    /\ ToBoolean app = true
    /\ Get app (KStr "props") = Normal props
    /\ Get props (KStr "externalAPIScope") = Normal scope
    /\ ToBoolean scope = false.

Fixpoint occurs (s : symbol) (l : list symbol) : bool :=
  match l with
  | [] => false
  | s' :: l' => symbol_eqb s s' || occurs s l'
  end.

(** Pairwise distinct symbols, as unique symbols are. *)
Fixpoint distinct_symbols (l : list symbol) : bool :=
  match l with
  | [] => true
  | s :: l' => negb (occurs s l') && distinct_symbols l'
  end.

(** [undefined] or [null]: the values a property cannot be read from. *)
Definition nullish (v : value) : bool :=
  match v with
  | VUndefined | VNull => true
  | _ => false
  end.

Definition is_throw {A} (c : completion A) : bool :=
  match c with
  | Normal _ => false
  | Throw _ => true
  end.

(** A computation which sends nothing, or exactly one event to the scope
    of the mounted app and then completes. *)
Definition at_most_one_send (store : Store) (m : M unit) : Prop :=
  m = ([], Normal tt)
  \/ (exists e, m = ([], Throw e))
  \/ (exists name data scope,
         mounted store scope /\ m = ([HostSend name data scope], Normal tt)).

(** The data object which [_sendConferenceEvent] hands to [_sendEvent]:
    the rest of its argument after [conference] and [type], with [url] set
    when [conference] is truthy. *)
Definition conference_event_data (JITSI_CONFERENCE_URL_KEY : key)
           (toURLString : value -> value) (action : object) : object :=
  let conference := obj_get action (KStr "conference") in
  let data := obj_remove (KStr "type") (obj_remove (KStr "conference") action) in
  if ToBoolean conference
  then obj_set data (KStr "url") (toURLString (GetV conference JITSI_CONFERENCE_URL_KEY))
  else data.

(** * Properties *)

(** ** Keys and objects *)

Lemma symbol_eqb_eq (a b : symbol) : symbol_eqb a b = true <-> a = b.
Proof.
  destruct a as [i s], b as [j t]; unfold symbol_eqb; simpl.
  rewrite andb_true_iff, Nat.eqb_eq, String.eqb_eq.
  split; [intros [-> ->]; reflexivity | intros H; inversion H; auto].
Qed.

Lemma key_eqb_eq (a b : key) : key_eqb a b = true <-> a = b.
Proof.
  destruct a, b; simpl; try (split; discriminate).
  - rewrite String.eqb_eq. split; [intros -> | intros H; inversion H]; reflexivity.
  - rewrite symbol_eqb_eq. split; [intros -> | intros H; inversion H]; reflexivity.
Qed.

Lemma key_eqb_refl (a : key) : key_eqb a a = true.
Proof. apply key_eqb_eq; reflexivity. Qed.

Lemma key_eqb_neq (a b : key) : key_eqb a b = false <-> a <> b.
Proof.
  rewrite <- key_eqb_eq. destruct (key_eqb a b); split; congruence.
Qed.

Lemma key_eqb_sym (a b : key) : key_eqb a b = key_eqb b a.
Proof.
  destruct (key_eqb b a) eqn:E.
  - apply key_eqb_eq in E. subst. apply key_eqb_refl.
  - apply key_eqb_neq. apply key_eqb_neq in E. congruence.
Qed.

Lemma obj_lookup_remove (k k' : key) (o : object) :
  obj_lookup (obj_remove k o) k' = if key_eqb k' k then None else obj_lookup o k'.
Proof.
  induction o as [|[k0 v0] o IH]; simpl.
  - destruct (key_eqb k' k); reflexivity.
  - destruct (key_eqb k k0) eqn:E0; simpl.
    + apply key_eqb_eq in E0. subst k0. rewrite IH.
      destruct (key_eqb k' k); reflexivity.
    + rewrite IH. destruct (key_eqb k' k0) eqn:E1; [|reflexivity].
      apply key_eqb_eq in E1. subst k0.
      rewrite key_eqb_sym, E0. reflexivity.
Qed.

Lemma obj_lookup_set (o : object) (k k' : key) (v : value) :
  obj_lookup (obj_set o k v) k' = if key_eqb k' k then Some v else obj_lookup o k'.
Proof.
  induction o as [|[k0 v0] o IH]; simpl.
  - destruct (key_eqb k' k); reflexivity.
  - destruct (key_eqb k k0) eqn:E0; simpl.
    + apply key_eqb_eq in E0. subst k0.
      destruct (key_eqb k' k); reflexivity.
    + rewrite IH. destruct (key_eqb k' k0) eqn:E1; [|reflexivity].
      apply key_eqb_eq in E1. subst k0.
      rewrite key_eqb_sym, E0. reflexivity.
Qed.

Lemma has_key_lookup (o : object) (k : key) :
  has_key o k = false <-> obj_lookup o k = None.
Proof.
  induction o as [|[k0 v0] o IH]; simpl.
  - tauto.
  - destruct (key_eqb k k0); simpl; [split; discriminate | exact IH].
Qed.

Lemma has_key_remove (k k' : key) (o : object) :
  has_key o k' = false -> has_key (obj_remove k o) k' = false.
Proof.
  rewrite !has_key_lookup, obj_lookup_remove. intros ->.
  destruct (key_eqb k' k); reflexivity.
Qed.

Lemma wf_object_remove (k : key) (o : object) :
  wf_object o = true -> wf_object (obj_remove k o) = true.
Proof.
  induction o as [|[k0 v0] o IH]; simpl; [reflexivity|].
  rewrite andb_true_iff, negb_true_iff. intros [Hk Hwf].
  destruct (key_eqb k k0); simpl; [auto|].
  rewrite (has_key_remove _ _ _ Hk). simpl. auto.
Qed.



(** Spreading an object over another: its own properties win. *)
Lemma obj_lookup_spread (src target : object) (k : key) :
  wf_object src = true ->
  obj_lookup (spread target src) k =
  match obj_lookup src k with
  | Some v => Some v
  | None => obj_lookup target k
  end.
Proof.
  unfold spread. revert target.
  induction src as [|[k0 v0] src IH]; intros target; simpl; [reflexivity|].
  rewrite andb_true_iff, negb_true_iff. intros [Hk Hwf].
  rewrite IH by assumption. rewrite obj_lookup_set.
  destruct (key_eqb k k0) eqn:E; [|reflexivity].
  apply key_eqb_eq in E. subst k0.
  apply has_key_lookup in Hk. rewrite Hk. reflexivity.
Qed.

Lemma obj_get_remove (k k' : key) (o : object) :
  obj_get (obj_remove k o) k' = if key_eqb k' k then VUndefined else obj_get o k'.
Proof.
  unfold obj_get. rewrite obj_lookup_remove. destruct (key_eqb k' k); reflexivity.
Qed.


(** ** Strings *)

Lemma length_append (a b : string) :
  String.length (a ++ b) = String.length a + String.length b.
Proof. induction a; simpl; auto. Qed.

Lemma substring_all (s : string) : substring 0 (String.length s) s = s.
Proof. induction s; simpl; congruence. Qed.

Lemma substring_prefix_append (a b : string) :
  substring 0 (String.length a) (a ++ b) = a.
Proof.
  induction a; simpl.
  - destruct b; reflexivity.
  - congruence.
Qed.

Lemma substring_skip_append (a b : string) (m : nat) :
  substring (String.length a) m (a ++ b) = substring 0 m b.
Proof. induction a; simpl; auto. Qed.

Lemma length_substring (s : string) (n m : nat) :
  String.length (substring n m s) <= String.length s - n
  /\ String.length (substring n m s) <= m.
Proof.
  revert n m. induction s as [|c s IH]; intros n m.
  - destruct n, m; simpl; lia.
  - destruct n as [|n].
    + destruct m as [|m]; simpl; [lia|].
      specialize (IH 0 m). lia.
    + simpl. specialize (IH n m). lia.
Qed.

Lemma prefix_length (p s : string) :
  String.prefix p s = true -> String.length p <= String.length s.
Proof.
  revert s. induction p as [|c p IH]; intros s H; simpl; [lia|].
  destruct s as [|d s]; simpl in *; [discriminate|].
  destruct (ascii_dec c d); [|discriminate].
  apply IH in H. lia.
Qed.

Lemma endsWith_append (a b : string) : endsWith (a ++ b) b = true.
Proof.
  unfold endsWith. rewrite length_append.
  apply andb_true_iff. split.
  - apply Nat.leb_le. lia.
  - replace (String.length a + String.length b - String.length b)
      with (String.length a) by lia.
    rewrite substring_skip_append, substring_all. apply String.eqb_refl.
Qed.

(** Slicing takes nothing away only from a string it leaves as it is. *)
Lemma slice_length (s : string) (start : Z) (end_ : option Z) :
  String.length (slice s start end_) <= String.length s.
Proof.
  unfold slice.
  pose proof (length_substring s
    (Z.to_nat (clamp_index (Z.of_nat (String.length s)) start))
    (Z.to_nat (Z.max
       (match end_ with
        | Some e => clamp_index (Z.of_nat (String.length s)) e
        | None => Z.of_nat (String.length s)
        end - clamp_index (Z.of_nat (String.length s)) start) 0))).
  lia.
Qed.

Lemma slice_from_length (s : string) (n : nat) (end_ : option Z) :
  n <= String.length s ->
  String.length (slice s (Z.of_nat n) end_) <= String.length s - n.
Proof.
  intros Hn. unfold slice.
  assert (Hc : clamp_index (Z.of_nat (String.length s)) (Z.of_nat n) = Z.of_nat n).
  { unfold clamp_index.
    destruct (Z.ltb_spec (Z.of_nat n) 0); lia. }
  rewrite Hc, Nat2Z.id.
  match goal with |- String.length (substring _ ?m _) <= _ =>
    pose proof (length_substring s n m) end.
  lia.
Qed.

(** ** [_getSymbolDescription] *)

Lemma strip_description_length (d : string) :
  String.length (strip_description d) <= String.length d.
Proof.
  unfold strip_description.
  destruct (startsWith d "Symbol(" && endsWith d ")").
  - pose proof (slice_length d 7 (Some (-1)%Z)).
    destruct (startsWith (slice d 7 (Some (-1)%Z)) "@@"); [|assumption].
    pose proof (slice_length (slice d 7 (Some (-1)%Z)) 2 None). lia.
  - destruct (startsWith d "@@"); [|lia].
    apply slice_length.
Qed.

(** The description is left as it is exactly when it carries neither the
    [Symbol(...)] wrapper nor the ["@@"] prefix. *)
Lemma strip_description_fixed (d : string) :
  strip_description d = d <->
  startsWith d "Symbol(" && endsWith d ")" = false /\ startsWith d "@@" = false.
Proof.
  split.
  - intros H. unfold strip_description in H.
    destruct (startsWith d "Symbol(" && endsWith d ")") eqn:Ew.
    + exfalso. apply andb_true_iff in Ew. destruct Ew as [Ep _].
      apply prefix_length in Ep. simpl in Ep.
      pose proof (slice_from_length d 7 (Some (-1)%Z) Ep) as Hl.
      change (Z.of_nat 7) with 7%Z in Hl.
      destruct (startsWith (slice d 7 (Some (-1)%Z)) "@@").
      * pose proof (slice_length (slice d 7 (Some (-1)%Z)) 2 None) as Hl2.
        rewrite H in Hl2. lia.
      * rewrite H in Hl. lia.
    + split; [reflexivity|].
      destruct (startsWith d "@@") eqn:Es; [|reflexivity].
      exfalso. apply prefix_length in Es. simpl in Es.
      pose proof (slice_from_length d 2 None Es) as Hl.
      change (Z.of_nat 2) with 2%Z in Hl.
      rewrite H in Hl. lia.
  - intros [Ew Es]. unfold strip_description. rewrite Ew, Es. reflexivity.
Qed.

(** A native symbol described by [d]: the wrapper goes, and then one
    ["@@"] prefix if [d] has one. *)
Lemma strip_description_native (d : string) :
  strip_description ("Symbol(" ++ d ++ ")") =
  if startsWith d "@@" then slice d 2 None else d.
Proof.
  unfold strip_description.
  assert (Hw : startsWith ("Symbol(" ++ d ++ ")") "Symbol("
               && endsWith ("Symbol(" ++ d ++ ")") ")" = true).
  { apply andb_true_iff. split.
    - unfold startsWith. simpl.
      repeat (match goal with |- context [ascii_dec ?a ?a] =>
                destruct (ascii_dec a a); [|congruence] end).
      destruct (d ++ ")"); reflexivity.
    - change ("Symbol(" ++ d ++ ")") with (("Symbol(" ++ d) ++ ")") at 1.
      apply endsWith_append. }
  rewrite Hw.
  assert (Hs : slice ("Symbol(" ++ d ++ ")") 7 (Some (-1)%Z) = d).
  { unfold slice, clamp_index.
    replace (String.length ("Symbol(" ++ d ++ ")")) with (8 + String.length d)
      by (simpl; rewrite length_append; simpl; lia).
    change (7 <? 0)%Z with false. change (-1 <? 0)%Z with true. cbv iota.
    rewrite Z.min_l by lia.
    replace (Z.to_nat (Z.max (Z.max (Z.of_nat (8 + String.length d) + -1) 0 - 7) 0))
      with (String.length d) by lia.
    change (Z.to_nat 7) with 7. simpl.
    apply substring_prefix_append. }
  rewrite Hs. reflexivity.
Qed.

Lemma getSymbolDescription_symbol (ObjectToString : object -> completion string)
      (s : symbol) :
  _getSymbolDescription ObjectToString (VSym s) =
  Normal (strip_description (sym_toString s)).
Proof. reflexivity. Qed.

Lemma getSymbolDescription_string (ObjectToString : object -> completion string)
      (s : string) :
  _getSymbolDescription ObjectToString (VStr s) = Normal (strip_description s).
Proof. reflexivity. Qed.

(** C5, as amended. The name derived from a symbolic tag always exists and
    depends on nothing but the text [toString()] gives for the tag, so two
    tags with the same label get the same name. A native tag described by
    [d] gets [d] with one leading ["@@"] taken away, if there is one. The
    derivation applied to a name it produced gives that name back exactly
    when the name neither starts with ["@@"] nor has the form
    ["Symbol(...)"]. The label ["@@conference.joined"] gives
    ["conference.joined"], whether it is the description of a native tag or
    the text of a polyfilled one, and ["config.load.error"] stays as it
    is. *)
Theorem C5_symbol_description (ObjectToString : object -> completion string) :
  (forall s : symbol,
      exists name, _getSymbolDescription ObjectToString (VSym s) = Normal name)
  /\ (forall s1 s2 : symbol,
         sym_toString s1 = sym_toString s2 ->
         _getSymbolDescription ObjectToString (VSym s1) =
         _getSymbolDescription ObjectToString (VSym s2))
  /\ (forall id d,
         _getSymbolDescription ObjectToString (VSym (native_symbol id d)) =
         Normal (if startsWith d "@@" then slice d 2 None else d))
  /\ (forall (s : symbol) name,
         _getSymbolDescription ObjectToString (VSym s) = Normal name ->
         (_getSymbolDescription ObjectToString (VStr name) = Normal name <->
          startsWith name "Symbol(" && endsWith name ")" = false
          /\ startsWith name "@@" = false))
  /\ (forall id,
         _getSymbolDescription ObjectToString
           (VSym (native_symbol id "@@conference.joined")) = Normal "conference.joined")
  /\ (forall id,
         _getSymbolDescription ObjectToString
           (VSym (polyfill_symbol id "conference.joined")) = Normal "conference.joined")
  /\ (forall id,
         _getSymbolDescription ObjectToString
           (VSym (native_symbol id "config.load.error")) = Normal "config.load.error").
Proof.
  split; [|split; [|split; [|split; [|split; [|split]]]]].
  - intros s. eexists. apply getSymbolDescription_symbol.
  - intros s1 s2 H. rewrite !getSymbolDescription_symbol. congruence.
  - intros id d. rewrite getSymbolDescription_symbol.
    change (sym_toString (native_symbol id d)) with ("Symbol(" ++ d ++ ")").
    rewrite strip_description_native. reflexivity.
  - intros s name _. split.
    + intros Hfix. apply strip_description_fixed.
      rewrite getSymbolDescription_string in Hfix. congruence.
    + intros Hfix. rewrite getSymbolDescription_string. f_equal.
      apply strip_description_fixed. exact Hfix.
  - intros id. reflexivity.
  - intros id. reflexivity.
  - intros id. reflexivity.
Qed.

(** At the tag described by ["@@conference.joined"], whose name has neither
    prefix nor wrapper. *)
Lemma C5_symbol_description_witness :
  _getSymbolDescription Sample.ObjectToString (VStr "conference.joined")
  = Normal "conference.joined".
Proof.
  destruct (C5_symbol_description Sample.ObjectToString)
    as (_ & _ & _ & Hidem & _).
  apply (Hidem (native_symbol 2 "@@conference.joined") "conference.joined").
  - reflexivity.
  - split; reflexivity.
Defined.

(** The derivation is not idempotent: the tag described by ["@@@@a"] is
    named ["@@a"], and the derivation takes ["@@a"], as a name or as the
    description of a tag, to ["a"]. *)
Lemma C5_counterexample :
  _getSymbolDescription Sample.ObjectToString (VSym (native_symbol 0 "@@@@a"))
  = Normal "@@a"
  /\ _getSymbolDescription Sample.ObjectToString (VStr "@@a") = Normal "a"
  /\ _getSymbolDescription Sample.ObjectToString (VSym (native_symbol 1 "@@a"))
     = Normal "a"
  /\ "@@a" <> "a".
Proof. repeat split; discriminate. Qed.

(** ** [_toErrorString] *)

Lemma append_nil_r (s : string) : s ++ "" = s.
Proof. induction s; simpl; congruence. Qed.

Lemma append_assoc (a b c : string) : (a ++ b) ++ c = a ++ b ++ c.
Proof. induction a; simpl; congruence. Qed.

Lemma contains_refl (s : string) : contains s s.
Proof. exists "", "". simpl. rewrite append_nil_r. reflexivity. Qed.

Lemma contains_empty (s : string) : contains s "".
Proof. exists "", s. reflexivity. Qed.

Lemma contains_left (a b : string) : contains (a ++ b) a.
Proof. exists "", b. reflexivity. Qed.

Lemma contains_right (a b : string) : contains (a ++ b) b.
Proof. exists a, "". rewrite append_nil_r. reflexivity. Qed.

(** C6, as amended. [_toErrorString] gives [""] for every falsy error and
    a string error back as it is. For an object whose [name] and [message]
    are strings or missing ([name] then counts as ["Error"], [message] as
    [""]), it gives the message alone when the name is empty, the name
    alone when the message is empty, and otherwise name, [": "] and
    message; in every case both occur in the result, and an object with
    neither gives ["Error"]. It returns a string for every object whose
    [name] and [message] are missing or primitives other than symbols, and
    the result of an object depends on these two properties only. It is
    not total: on a truthy error that is neither a string nor an object it
    throws a [TypeError]. *)
Theorem C6_toErrorString_shapes (ObjectToString : object -> completion string) :
  (forall e, ToBoolean e = false -> _toErrorString ObjectToString e = Normal "")
  /\ (forall s, _toErrorString ObjectToString (VStr s) = Normal s)
  /\ (forall o n m,
         (obj_get o (KStr "name") = VStr n
          \/ obj_get o (KStr "name") = VUndefined /\ n = "Error") ->
         (obj_get o (KStr "message") = VStr m
          \/ obj_get o (KStr "message") = VUndefined /\ m = "") ->
         exists r,
           _toErrorString ObjectToString (VObj o) = Normal r
           /\ r = (if n =? "" then m else if m =? "" then n else n ++ ": " ++ m)
           /\ contains r n /\ contains r m)
  /\ (forall o,
         obj_get o (KStr "name") = VUndefined ->
         obj_get o (KStr "message") = VUndefined ->
         _toErrorString ObjectToString (VObj o) = Normal "Error")
  /\ (forall o,
         serializable (obj_get o (KStr "name")) = true ->
         serializable (obj_get o (KStr "message")) = true ->
         exists r, _toErrorString ObjectToString (VObj o) = Normal r)
  /\ (forall o o',
         obj_get o (KStr "name") = obj_get o' (KStr "name") ->
         obj_get o (KStr "message") = obj_get o' (KStr "message") ->
         _toErrorString ObjectToString (VObj o) =
         _toErrorString ObjectToString (VObj o'))
  /\ (forall e,
         ToBoolean e = true ->
         (forall s, e <> VStr s) -> (forall o, e <> VObj o) ->
         _toErrorString ObjectToString e = Throw TypeError).
Proof.
  split; [|split; [|split; [|split; [|split; [|split]]]]].
  - intros e He. unfold _toErrorString. rewrite He. reflexivity.
  - intros s. unfold _toErrorString. simpl.
    destruct (String.eqb_spec s ""); simpl; congruence.
  - intros o n m Hn Hm.
    exists (if n =? "" then m else if m =? "" then n else n ++ ": " ++ m).
    split; [|split; [reflexivity|]].
    + unfold _toErrorString. simpl.
      destruct Hn as [-> | [-> ->]]; destruct Hm as [-> | [-> ->]]; simpl;
        repeat match goal with |- context [if ?b then _ else _] => destruct b end;
        reflexivity.
    + destruct (String.eqb_spec n ""); [subst n|].
      { split; [apply contains_empty | apply contains_refl]. }
      destruct (String.eqb_spec m ""); [subst m|].
      { split; [apply contains_refl | apply contains_empty]. }
      split; [apply contains_left|].
      rewrite <- append_assoc. apply contains_right.
  - intros o Hn Hm. unfold _toErrorString. simpl. rewrite Hn, Hm. reflexivity.
  - intros o Hn Hm. unfold _toErrorString. simpl.
    destruct (obj_get o (KStr "name")) as [| |[|]| | | |];
      try discriminate Hn;
      destruct (obj_get o (KStr "message")) as [| |[|]| | | |];
      try discriminate Hm; simpl;
      repeat match goal with |- context [if ?b then _ else _] => destruct b end;
      eauto.
  - intros o o' Hn Hm. unfold _toErrorString. simpl. rewrite Hn, Hm. reflexivity.
  - intros e He Hs Ho. unfold _toErrorString. rewrite He.
    destruct e; try reflexivity.
    + exfalso. eapply Hs. reflexivity.
    + exfalso. eapply Ho. reflexivity.
Qed.

(** At the error [{ name: "TypeError", message: "x is undefined" }]. *)
Lemma C6_toErrorString_shapes_witness :
  exists r,
    _toErrorString Sample.ObjectToString
      (VObj [(KStr "name", VStr "TypeError"); (KStr "message", VStr "x is undefined")])
    = Normal r
    /\ r = "TypeError: x is undefined"
    /\ contains r "TypeError" /\ contains r "x is undefined".
Proof.
  destruct (C6_toErrorString_shapes Sample.ObjectToString)
    as (_ & _ & Hobj & _).
  apply (Hobj [(KStr "name", VStr "TypeError"); (KStr "message", VStr "x is undefined")]
              "TypeError" "x is undefined").
  - left. reflexivity.
  - left. reflexivity.
Defined.

(** [_toErrorString] raises on the truthy errors [true] and [42], and on an
    object whose [name] is a symbol. *)
Lemma C6_counterexample :
  _toErrorString Sample.ObjectToString (VBool true) = Throw TypeError
  /\ _toErrorString Sample.ObjectToString (VNum 42) = Throw TypeError
  /\ _toErrorString Sample.ObjectToString
       (VObj [(KStr "name", VSym (native_symbol 0 "oops"))]) = Throw TypeError.
Proof. repeat split. Qed.

(** ** The trace monad *)

Lemma bind_tell {B} (e : effect) (k : unit -> M B) :
  bind (tell e) k = (e :: trace (k tt), outcome (k tt)).
Proof. unfold bind, tell, trace, outcome. destruct (k tt). reflexivity. Qed.

Lemma bind_lift_Normal {A B} (a : A) (k : A -> M B) :
  bind (lift (Normal a)) k = k a.
Proof. unfold bind, lift. destruct (k a). reflexivity. Qed.

Lemma bind_lift_Throw {A B} (e : exn) (k : A -> M B) :
  bind (lift (Throw e)) k = ([], Throw e).
Proof. reflexivity. Qed.

Lemma bind_ret {A B} (a : A) (k : A -> M B) : bind (ret a) k = k a.
Proof. unfold bind, ret. destruct (k a). reflexivity. Qed.

Lemma bind_Normal {A B} (t : list effect) (a : A) (k : A -> M B) :
  bind (t, Normal a) k = ((t ++ trace (k a))%list, outcome (k a)).
Proof. unfold bind, trace, outcome. destruct (k a). reflexivity. Qed.

Lemma bind_Throw {A B} (t : list effect) (e : exn) (k : A -> M B) :
  bind (t, Throw e) k = (t, Throw e).
Proof. reflexivity. Qed.

(** ** [_sendEvent] *)

Lemma Get_truthy (v : value) (k : key) :
  ToBoolean v = true -> Get v k = Normal (GetV v k).
Proof. destruct v; simpl; congruence. Qed.

Lemma sendEvent_mounted (store : Store) (scope : value) (name : string)
      (data : object) :
  mounted store scope ->
  _sendEvent store name data = ([HostSend name data scope], Normal tt).
Proof.
  intros (fa & app & props & H1 & H2 & H3 & H4 & H5 & H6).
  unfold _sendEvent.
  rewrite H1, bind_lift_Normal, H2, bind_lift_Normal, H3.
  rewrite H4, bind_lift_Normal, H5, bind_lift_Normal, H6.
  reflexivity.
Qed.

Lemma sendEvent_unmounted (store : Store) (name : string) (data : object) :
  unmounted store -> _sendEvent store name data = ([], Normal tt).
Proof.
  intros (fa & app & H1 & H2 & H3).
  unfold _sendEvent.
  rewrite H1, bind_lift_Normal, H2, bind_lift_Normal, H3.
  reflexivity.
Qed.

Lemma sendEvent_scopeless (store : Store) (name : string) (data : object) :
  scopeless store -> _sendEvent store name data = ([], Normal tt).
Proof.
  intros (fa & app & props & scope & H1 & H2 & H3 & H4 & H5 & H6).
  unfold _sendEvent.
  rewrite H1, bind_lift_Normal, H2, bind_lift_Normal, H3.
  rewrite H4, bind_lift_Normal, H5, bind_lift_Normal, H6.
  reflexivity.
Qed.

Lemma sendEvent_cases (store : Store) (name : string) (data : object) :
  _sendEvent store name data = ([], Normal tt)
  \/ (exists e, _sendEvent store name data = ([], Throw e))
  \/ (exists scope,
         mounted store scope
         /\ _sendEvent store name data = ([HostSend name data scope], Normal tt)).
Proof.
  unfold _sendEvent.
  destruct (Get (getState store) (KStr "features/app")) as [fa|e] eqn:H1;
    [rewrite bind_lift_Normal | right; left; exists e; reflexivity].
  destruct (Get fa (KStr "app")) as [app|e] eqn:H2;
    [rewrite bind_lift_Normal | right; left; exists e; reflexivity].
  destruct (ToBoolean app) eqn:H3; [|left; reflexivity].
  destruct (Get app (KStr "props")) as [props|e] eqn:H4;
    [rewrite bind_lift_Normal | right; left; exists e; reflexivity].
  destruct (Get props (KStr "externalAPIScope")) as [scope|e] eqn:H5;
    [rewrite bind_lift_Normal | right; left; exists e; reflexivity].
  destruct (ToBoolean scope) eqn:H6; [|left; reflexivity].
  right; right. exists scope. split; [|reflexivity].
  exists fa, app, props. auto 10.
Qed.

Lemma sendEvent_at_most_one (store : Store) (name : string) (data : object) :
  at_most_one_send store (_sendEvent store name data).
Proof.
  destruct (sendEvent_cases store name data) as [H | [[e H] | (scope & Hm & H)]];
    unfold at_most_one_send; rewrite H; eauto 10.
Qed.


Lemma mounted_not_idle (store : Store) (scope : value) :
  mounted store scope -> ~ (unmounted store \/ scopeless store).
Proof.
  intros H [H' | H'];
    pose proof (sendEvent_mounted store scope "" [] H) as E.
  - rewrite (sendEvent_unmounted store "" [] H') in E. discriminate.
  - rewrite (sendEvent_scopeless store "" [] H') in E. discriminate.
Qed.

(** ** The middleware *)

Lemma trace_bind_ret {A} (m : M unit) (a : A) :
  trace (bind m (fun _ => ret a)) = trace m.
Proof.
  destruct m as [t [[]|e]]; simpl; [apply app_nil_r | reflexivity].
Qed.

Lemma outcome_bind_ret {A} (m : M unit) (a : A) :
  outcome (bind m (fun _ => ret a)) =
  match outcome m with
  | Normal _ => Normal a
  | Throw e => Throw e
  end.
Proof. destruct m as [t [[]|e]]; reflexivity. Qed.

Lemma at_most_one_send_bind_lift {A} (store : Store) (c : completion A)
      (k : A -> M unit) :
  (forall a, at_most_one_send store (k a)) ->
  at_most_one_send store (bind (lift c) k).
Proof.
  intros H. destruct c as [a|e].
  - rewrite bind_lift_Normal. apply H.
  - rewrite bind_lift_Throw. right; left. exists e. reflexivity.
Qed.

Lemma is_type_eq (v : value) (c : symbol) : is_type v c = true <-> v = VSym c.
Proof.
  destruct v; simpl; try (split; discriminate).
  rewrite symbol_eqb_eq. split; [intros -> | intros H; inversion H]; reflexivity.
Qed.

Lemma occurs_In (s : symbol) (l : list symbol) : occurs s l = true <-> In s l.
Proof.
  induction l as [|s' l IH]; simpl; [split; [discriminate | tauto]|].
  rewrite orb_true_iff, symbol_eqb_eq, IH. split; intros [H|H]; auto.
Qed.

Lemma symbol_eqb_sym (a b : symbol) : symbol_eqb a b = symbol_eqb b a.
Proof.
  destruct (symbol_eqb b a) eqn:E.
  - apply symbol_eqb_eq in E. subst. apply symbol_eqb_eq. reflexivity.
  - destruct (symbol_eqb a b) eqn:E'; [|reflexivity].
    apply symbol_eqb_eq in E'. subst.
    rewrite (proj2 (symbol_eqb_eq b b) eq_refl) in E. discriminate.
Qed.

Lemma symbol_eqb_refl (a : symbol) : symbol_eqb a a = true.
Proof. apply symbol_eqb_eq. reflexivity. Qed.

Section Bridge.

Variables CONFERENCE_FAILED CONFERENCE_JOINED CONFERENCE_LEFT
          CONFERENCE_WILL_JOIN CONFERENCE_WILL_LEAVE
          LOAD_CONFIG_ERROR : symbol.
Variable JITSI_CONFERENCE_URL_KEY : key.
Variable toURLString : value -> value.
Variable ObjectToString : object -> completion string.

Local Abbreviation send_conference :=
  (_sendConferenceEvent JITSI_CONFERENCE_URL_KEY toURLString ObjectToString).
Local Abbreviation event_data :=
  (conference_event_data JITSI_CONFERENCE_URL_KEY toURLString).
Local Abbreviation switch :=
  (switch_type CONFERENCE_FAILED CONFERENCE_JOINED CONFERENCE_LEFT
               CONFERENCE_WILL_JOIN CONFERENCE_WILL_LEAVE LOAD_CONFIG_ERROR
               JITSI_CONFERENCE_URL_KEY toURLString ObjectToString).
Local Abbreviation run :=
  (middleware CONFERENCE_FAILED CONFERENCE_JOINED CONFERENCE_LEFT
              CONFERENCE_WILL_JOIN CONFERENCE_WILL_LEAVE LOAD_CONFIG_ERROR
              JITSI_CONFERENCE_URL_KEY toURLString ObjectToString).
Local Abbreviation describe := (_getSymbolDescription ObjectToString).
Local Abbreviation error_string := (_toErrorString ObjectToString).
Local Abbreviation all_types :=
  [CONFERENCE_FAILED; CONFERENCE_JOINED; CONFERENCE_LEFT;
   CONFERENCE_WILL_JOIN; CONFERENCE_WILL_LEAVE; LOAD_CONFIG_ERROR].

(** *** [_sendConferenceEvent] *)

Lemma sendConferenceEvent_eq (store : Store) (action : object) :
  send_conference store action =
  bind (lift (describe (obj_get action (KStr "type"))))
       (fun name => _sendEvent store name (event_data action)).
Proof.
  unfold _sendConferenceEvent, conference_event_data.
  destruct (ToBoolean (obj_get action (KStr "conference"))) eqn:E.
  - rewrite (Get_truthy _ _ E), bind_lift_Normal, bind_ret. reflexivity.
  - rewrite bind_ret. reflexivity.
Qed.

Lemma sendConferenceEvent_symbol (store : Store) (action : object) (ty : symbol) :
  obj_get action (KStr "type") = VSym ty ->
  send_conference store action =
  _sendEvent store (strip_description (sym_toString ty)) (event_data action).
Proof.
  intros H. rewrite sendConferenceEvent_eq, H, getSymbolDescription_symbol.
  rewrite bind_lift_Normal. reflexivity.
Qed.

Lemma sendConferenceEvent_at_most_one (store : Store) (action : object) :
  at_most_one_send store (send_conference store action).
Proof.
  rewrite sendConferenceEvent_eq. apply at_most_one_send_bind_lift.
  intros name. apply sendEvent_at_most_one.
Qed.

(** What [_sendConferenceEvent] sends under each key. *)
Lemma event_data_lookup (action : object) (k : key) :
  obj_lookup (event_data action) k =
  if key_eqb k (KStr "url") && ToBoolean (obj_get action (KStr "conference"))
  then Some (toURLString (GetV (obj_get action (KStr "conference"))
                               JITSI_CONFERENCE_URL_KEY))
  else if key_eqb k (KStr "type") || key_eqb k (KStr "conference")
       then None
       else obj_lookup action k.
Proof.
  unfold conference_event_data.
  destruct (ToBoolean (obj_get action (KStr "conference"))).
  - rewrite obj_lookup_set, !obj_lookup_remove.
    destruct (key_eqb k (KStr "url")) eqn:Eu; simpl; [reflexivity|].
    destruct (key_eqb k (KStr "type")), (key_eqb k (KStr "conference"));
      reflexivity.
  - rewrite !obj_lookup_remove, andb_false_r.
    destruct (key_eqb k (KStr "type")), (key_eqb k (KStr "conference"));
      reflexivity.
Qed.

(** The object [{ error: s, ...data }] of the [CONFERENCE_FAILED] case. *)
Lemma failed_argument_lookup (action : object) (s : string) (k : key) :
  wf_object action = true ->
  obj_lookup (spread [(KStr "error", VStr s)] (obj_remove (KStr "error") action)) k
  = if key_eqb k (KStr "error") then Some (VStr s) else obj_lookup action k.
Proof.
  intros Hwf.
  rewrite obj_lookup_spread by (apply wf_object_remove; exact Hwf).
  rewrite obj_lookup_remove. simpl.
  destruct (key_eqb k (KStr "error")); [reflexivity|].
  destruct (obj_lookup action k); reflexivity.
Qed.

Lemma failed_argument_get (action : object) (s : string) (k : key) :
  wf_object action = true ->
  key_eqb k (KStr "error") = false ->
  obj_get (spread [(KStr "error", VStr s)] (obj_remove (KStr "error") action)) k
  = obj_get action k.
Proof.
  intros Hwf Hk. unfold obj_get.
  rewrite failed_argument_lookup, Hk by assumption. reflexivity.
Qed.

(** *** The [switch] statement *)

Lemma switch_at_most_one (store : Store) (action : object) :
  at_most_one_send store (switch store action).
Proof.
  unfold switch_type.
  destruct (is_type (obj_get action (KStr "type")) CONFERENCE_FAILED).
  { apply at_most_one_send_bind_lift. intros r.
    destruct (negb (ToBoolean r)); [|left; reflexivity].
    apply at_most_one_send_bind_lift. intros s.
    apply sendConferenceEvent_at_most_one. }
  destruct (is_type (obj_get action (KStr "type")) CONFERENCE_JOINED
            || is_type (obj_get action (KStr "type")) CONFERENCE_LEFT
            || is_type (obj_get action (KStr "type")) CONFERENCE_WILL_JOIN
            || is_type (obj_get action (KStr "type")) CONFERENCE_WILL_LEAVE).
  { apply sendConferenceEvent_at_most_one. }
  destruct (is_type (obj_get action (KStr "type")) LOAD_CONFIG_ERROR);
    [|left; reflexivity].
  apply at_most_one_send_bind_lift. intros name.
  apply at_most_one_send_bind_lift. intros s.
  apply sendEvent_at_most_one.
Qed.

Lemma switch_failed (store : Store) (action : object) :
  is_type (obj_get action (KStr "type")) CONFERENCE_FAILED = true ->
  switch store action =
  bind (lift (Get (obj_get action (KStr "error")) (KStr "recoverable")))
       (fun recoverable =>
          if negb (ToBoolean recoverable)
          then bind (lift (error_string (obj_get action (KStr "error"))))
                    (fun s => send_conference store
                                (spread [(KStr "error", VStr s)]
                                        (obj_remove (KStr "error") action)))
          else ret tt).
Proof. intros H. unfold switch_type. rewrite H. reflexivity. Qed.

Lemma run_eq (store : Store) (next : object -> value) (action : object) :
  run store next action =
  (NextCall action :: trace (switch store action),
   match outcome (switch store action) with
   | Normal _ => Normal (next action)
   | Throw e => Throw e
   end).
Proof.
  unfold middleware.
  rewrite bind_tell, trace_bind_ret, outcome_bind_ret. reflexivity.
Qed.

Lemma run_host_sends (store : Store) (next : object -> value) (action : object) :
  host_sends (trace (run store next action)) = trace (switch store action).
Proof.
  rewrite run_eq. simpl.
  destruct (switch_at_most_one store action)
    as [H | [[e H] | (n & d & sc & _ & H)]]; rewrite H; reflexivity.
Qed.

Lemma lifecycle_not_failed (ty : symbol) :
  distinct_symbols all_types = true ->
  In ty [CONFERENCE_JOINED; CONFERENCE_LEFT; CONFERENCE_WILL_JOIN;
         CONFERENCE_WILL_LEAVE] ->
  symbol_eqb ty CONFERENCE_FAILED = false.
Proof.
  intros Hd Hin. simpl in Hd.
  apply andb_true_iff in Hd. destruct Hd as [Hd _].
  apply negb_true_iff in Hd.
  destruct (symbol_eqb ty CONFERENCE_FAILED) eqn:E; [|reflexivity].
  apply symbol_eqb_eq in E. subst ty.
  assert (Ho : occurs CONFERENCE_FAILED
                 [CONFERENCE_JOINED; CONFERENCE_LEFT; CONFERENCE_WILL_JOIN;
                  CONFERENCE_WILL_LEAVE; LOAD_CONFIG_ERROR] = true).
  { apply occurs_In. simpl in *. tauto. }
  simpl in Ho. congruence.
Qed.

Lemma lifecycle_test (ty : symbol) :
  In ty [CONFERENCE_JOINED; CONFERENCE_LEFT; CONFERENCE_WILL_JOIN;
         CONFERENCE_WILL_LEAVE] ->
  symbol_eqb ty CONFERENCE_JOINED || symbol_eqb ty CONFERENCE_LEFT
  || symbol_eqb ty CONFERENCE_WILL_JOIN || symbol_eqb ty CONFERENCE_WILL_LEAVE
  = true.
Proof.
  intros [<- | [<- | [<- | [<- | []]]]]; rewrite symbol_eqb_refl;
    rewrite ?orb_true_r; reflexivity.
Qed.

Lemma config_error_only (ty : symbol) :
  distinct_symbols all_types = true ->
  ty = LOAD_CONFIG_ERROR ->
  symbol_eqb ty CONFERENCE_FAILED = false
  /\ symbol_eqb ty CONFERENCE_JOINED || symbol_eqb ty CONFERENCE_LEFT
     || symbol_eqb ty CONFERENCE_WILL_JOIN || symbol_eqb ty CONFERENCE_WILL_LEAVE
     = false.
Proof.
  intros Hd ->. simpl in Hd.
  repeat (rewrite ?andb_true_iff, ?negb_true_iff, ?orb_false_iff in Hd).
  rewrite !(symbol_eqb_sym LOAD_CONFIG_ERROR).
  intuition (repeat match goal with H : _ = false |- _ => rewrite H end; reflexivity).
Qed.

Lemma switch_lifecycle (store : Store) (action : object) (ty : symbol) :
  obj_get action (KStr "type") = VSym ty ->
  symbol_eqb ty CONFERENCE_FAILED = false ->
  symbol_eqb ty CONFERENCE_JOINED || symbol_eqb ty CONFERENCE_LEFT
  || symbol_eqb ty CONFERENCE_WILL_JOIN || symbol_eqb ty CONFERENCE_WILL_LEAVE
  = true ->
  switch store action =
  _sendEvent store (strip_description (sym_toString ty)) (event_data action).
Proof.
  intros Hty Hf Hl. unfold switch_type. rewrite Hty. simpl is_type.
  rewrite Hf, Hl. apply sendConferenceEvent_symbol. exact Hty.
Qed.

Lemma switch_config_error (store : Store) (action : object) (ty : symbol) :
  obj_get action (KStr "type") = VSym ty ->
  symbol_eqb ty CONFERENCE_FAILED = false ->
  symbol_eqb ty CONFERENCE_JOINED || symbol_eqb ty CONFERENCE_LEFT
  || symbol_eqb ty CONFERENCE_WILL_JOIN || symbol_eqb ty CONFERENCE_WILL_LEAVE
  = false ->
  symbol_eqb ty LOAD_CONFIG_ERROR = true ->
  switch store action =
  bind (lift (error_string (obj_get action (KStr "error"))))
       (fun s => _sendEvent store (strip_description (sym_toString ty))
                   [(KStr "error", VStr s);
                    (KStr "url", toURLString (obj_get action (KStr "locationURL")))]).
Proof.
  intros Hty Hf Hl Hc. unfold switch_type. rewrite Hty. simpl is_type.
  rewrite Hf, Hl, Hc, getSymbolDescription_symbol, bind_lift_Normal.
  reflexivity.
Qed.

Lemma switch_failed_sends (store : Store) (action : object) (r : value)
      (s : string) :
  wf_object action = true ->
  obj_get action (KStr "type") = VSym CONFERENCE_FAILED ->
  Get (obj_get action (KStr "error")) (KStr "recoverable") = Normal r ->
  ToBoolean r = false ->
  error_string (obj_get action (KStr "error")) = Normal s ->
  switch store action =
  _sendEvent store (strip_description (sym_toString CONFERENCE_FAILED))
    (event_data (spread [(KStr "error", VStr s)] (obj_remove (KStr "error") action))).
Proof.
  intros Hwf Hty Hrec Hr Hs.
  rewrite switch_failed by (apply is_type_eq; exact Hty).
  rewrite Hrec, bind_lift_Normal, Hr. simpl negb. cbv iota.
  rewrite Hs, bind_lift_Normal.
  apply sendConferenceEvent_symbol.
  rewrite failed_argument_get by (assumption || reflexivity). exact Hty.
Qed.

(** Where an event that was sent comes from. *)
Lemma switch_send_inv (store : Store) (action : object) (name : string)
      (data : object) (scope : value) :
  wf_object action = true ->
  In (HostSend name data scope) (trace (switch store action)) ->
  exists ty,
    obj_get action (KStr "type") = VSym ty
    /\ name = strip_description (sym_toString ty)
    /\ ((ty = CONFERENCE_FAILED
         /\ exists s,
             error_string (obj_get action (KStr "error")) = Normal s
             /\ data = event_data (spread [(KStr "error", VStr s)]
                                          (obj_remove (KStr "error") action)))
        \/ (symbol_eqb ty CONFERENCE_FAILED = false /\ data = event_data action)
        \/ (ty = LOAD_CONFIG_ERROR
            /\ exists s,
                error_string (obj_get action (KStr "error")) = Normal s
                /\ data = [(KStr "error", VStr s);
                           (KStr "url",
                            toURLString (obj_get action (KStr "locationURL")))])).
Proof.
  intros Hwf Hin.
  destruct (obj_get action (KStr "type")) as [| | | | |ty|] eqn:Hty;
    try (unfold switch_type in Hin; rewrite Hty in Hin; simpl in Hin; contradiction).
  exists ty. split; [reflexivity|].
  assert (Hone : forall n d,
             In (HostSend name data scope) (trace (_sendEvent store n d)) ->
             name = n /\ data = d).
  { intros n d H.
    destruct (sendEvent_cases store n d) as [E | [[e E] | (sc & _ & E)]];
      rewrite E in H; simpl in H; try contradiction.
    destruct H as [H | []]. inversion H. auto. }
  destruct (symbol_eqb ty CONFERENCE_FAILED) eqn:Ef.
  - apply symbol_eqb_eq in Ef. subst ty.
    rewrite switch_failed in Hin by (apply is_type_eq; exact Hty).
    destruct (Get (obj_get action (KStr "error")) (KStr "recoverable")) as [r|e];
      [rewrite bind_lift_Normal in Hin | simpl in Hin; contradiction].
    destruct (negb (ToBoolean r)); [|simpl in Hin; contradiction].
    destruct (error_string (obj_get action (KStr "error"))) as [s|e] eqn:Hes;
      [rewrite bind_lift_Normal in Hin | simpl in Hin; contradiction].
    rewrite (sendConferenceEvent_symbol store _ CONFERENCE_FAILED) in Hin
      by (rewrite failed_argument_get by (assumption || reflexivity); exact Hty).
    apply Hone in Hin. destruct Hin as [-> ->].
    split; [reflexivity|]. left. split; [reflexivity|]. exists s. auto.
  - destruct (symbol_eqb ty CONFERENCE_JOINED || symbol_eqb ty CONFERENCE_LEFT
              || symbol_eqb ty CONFERENCE_WILL_JOIN
              || symbol_eqb ty CONFERENCE_WILL_LEAVE) eqn:El.
    + rewrite (switch_lifecycle store action ty Hty Ef El) in Hin.
      apply Hone in Hin. destruct Hin as [-> ->]. auto.
    + destruct (symbol_eqb ty LOAD_CONFIG_ERROR) eqn:Ec.
      * rewrite (switch_config_error store action ty Hty Ef El Ec) in Hin.
        destruct (error_string (obj_get action (KStr "error"))) as [s|e] eqn:Hes;
          [rewrite bind_lift_Normal in Hin | simpl in Hin; contradiction].
        apply Hone in Hin. destruct Hin as [-> ->].
        apply symbol_eqb_eq in Ec.
        split; [reflexivity|]. right; right. split; [exact Ec|]. exists s. auto.
      * unfold switch_type in Hin. rewrite Hty in Hin. simpl is_type in Hin.
        rewrite Ef, El, Ec in Hin. simpl in Hin. contradiction.
Qed.

Lemma run_one_send (store : Store) (next : object -> value) (action : object)
      (name : string) (data : object) (scope : value) :
  mounted store scope ->
  switch store action = _sendEvent store name data ->
  run store next action =
  ([NextCall action; HostSend name data scope], Normal (next action)).
Proof.
  intros Hm Hs. rewrite run_eq, Hs, (sendEvent_mounted store scope name data Hm).
  reflexivity.
Qed.

(** *** The claims about the middleware *)

(** C1, as amended. A [CONFERENCE_FAILED] action whose error has a truthy
    [recoverable] property produces no event: the middleware calls [next],
    returns its result, and does nothing else, whatever the other fields of
    the action and the state of the store. *)
Theorem C1_recoverable_error_sends_nothing (store : Store)
        (next : object -> value) (action : object) (r : value) :
  is_type (obj_get action (KStr "type")) CONFERENCE_FAILED = true ->
  Get (obj_get action (KStr "error")) (KStr "recoverable") = Normal r ->
  ToBoolean r = true ->
  run store next action = ([NextCall action], Normal (next action)).
Proof.
  intros Hty Hrec Hr. rewrite run_eq. unfold switch_type.
  rewrite Hty, Hrec, bind_lift_Normal, Hr. reflexivity.
Qed.

(** C2, as amended. Take a [CONFERENCE_FAILED] action whose error can be
    dereferenced and has no truthy [recoverable] property, and which
    [_toErrorString] turns into the string [s]. Then the [switch] does
    exactly one thing: it hands one event, named by the description of
    [CONFERENCE_FAILED], to [_sendEvent]; with an app with a scope mounted,
    the native [sendEvent] is called exactly once with it, and the result of
    [next] is returned. In the data, [error] is the string [s]; [type] and
    [conference] are absent; [url] is the URL string of the conference when
    the action has a truthy [conference], and the [url] of the action
    otherwise; every other field is as in the action. *)
Theorem C2_failed_event (action : object) (r : value) (s : string) :
  wf_object action = true ->
  is_type (obj_get action (KStr "type")) CONFERENCE_FAILED = true ->
  Get (obj_get action (KStr "error")) (KStr "recoverable") = Normal r ->
  ToBoolean r = false ->
  error_string (obj_get action (KStr "error")) = Normal s ->
  exists data,
    (forall store,
        switch store action =
        _sendEvent store (strip_description (sym_toString CONFERENCE_FAILED)) data)
    /\ (forall store scope next,
           mounted store scope ->
           run store next action =
           ([NextCall action;
             HostSend (strip_description (sym_toString CONFERENCE_FAILED)) data scope],
            Normal (next action)))
    /\ obj_lookup data (KStr "error") = Some (VStr s)
    /\ obj_lookup data (KStr "type") = None
    /\ obj_lookup data (KStr "conference") = None
    /\ obj_lookup data (KStr "url") =
       (if ToBoolean (obj_get action (KStr "conference"))
        then Some (toURLString (GetV (obj_get action (KStr "conference"))
                                     JITSI_CONFERENCE_URL_KEY))
        else obj_lookup action (KStr "url"))
    /\ (forall k,
           k <> KStr "error" -> k <> KStr "type" -> k <> KStr "conference" ->
           k <> KStr "url" ->
           obj_lookup data k = obj_lookup action k).
Proof.
  intros Hwf Hty Hrec Hr Hs. apply is_type_eq in Hty.
  exists (event_data (spread [(KStr "error", VStr s)]
                             (obj_remove (KStr "error") action))).
  assert (Hswitch : forall store,
             switch store action =
             _sendEvent store (strip_description (sym_toString CONFERENCE_FAILED))
               (event_data (spread [(KStr "error", VStr s)]
                                   (obj_remove (KStr "error") action))))
    by (intros store; apply (switch_failed_sends store action r s); assumption).
  assert (Hc : obj_get (spread [(KStr "error", VStr s)]
                               (obj_remove (KStr "error") action))
                       (KStr "conference")
               = obj_get action (KStr "conference"))
    by (apply failed_argument_get; [exact Hwf | reflexivity]).
  split; [exact Hswitch|].
  split; [intros store scope next Hm; apply run_one_send; auto|].
  split; [|split; [|split; [|split]]].
  - rewrite event_data_lookup, failed_argument_lookup by exact Hwf. reflexivity.
  - rewrite event_data_lookup. simpl key_eqb. reflexivity.
  - rewrite event_data_lookup. simpl key_eqb. rewrite orb_true_r. reflexivity.
  - rewrite event_data_lookup, Hc, failed_argument_lookup by exact Hwf.
    simpl key_eqb. simpl.
    destruct (ToBoolean (obj_get action (KStr "conference"))); reflexivity.
  - intros k He Ht Hcf Hu.
    apply key_eqb_neq in He, Ht, Hcf, Hu.
    rewrite event_data_lookup, failed_argument_lookup by exact Hwf.
    rewrite He, Ht, Hcf, Hu. reflexivity.
Qed.

(** C3, as amended. Take an action of one of the four conference
    lifecycle types. The [switch] hands exactly one event, named by the
    description of the type, to [_sendEvent], and raises nothing of its own;
    with an app with a scope mounted the native [sendEvent] is called
    exactly once with it. [conference] and [type] are absent from the data,
    and every field other than these and [url] is as in the action. With a
    truthy [conference], [url] is [toURLString] of what the conference holds
    under [JITSI_CONFERENCE_URL_KEY]. With a falsy or missing [conference],
    the data are the other fields of the action and nothing else, so they
    have a [url] exactly when the action has one. *)
Theorem C3_lifecycle_event (action : object) (ty : symbol) :
  distinct_symbols all_types = true ->
  In ty [CONFERENCE_JOINED; CONFERENCE_LEFT; CONFERENCE_WILL_JOIN;
         CONFERENCE_WILL_LEAVE] ->
  obj_get action (KStr "type") = VSym ty ->
  exists data,
    (forall store,
        switch store action =
        _sendEvent store (strip_description (sym_toString ty)) data)
    /\ (forall store scope next,
           mounted store scope ->
           run store next action =
           ([NextCall action;
             HostSend (strip_description (sym_toString ty)) data scope],
            Normal (next action)))
    /\ obj_lookup data (KStr "conference") = None
    /\ obj_lookup data (KStr "type") = None
    /\ (ToBoolean (obj_get action (KStr "conference")) = true ->
        obj_lookup data (KStr "url") =
        Some (toURLString (GetV (obj_get action (KStr "conference"))
                                JITSI_CONFERENCE_URL_KEY)))
    /\ (ToBoolean (obj_get action (KStr "conference")) = false ->
        data = obj_remove (KStr "type") (obj_remove (KStr "conference") action)
        /\ obj_lookup data (KStr "url") = obj_lookup action (KStr "url"))
    /\ (forall k,
           k <> KStr "conference" -> k <> KStr "type" -> k <> KStr "url" ->
           obj_lookup data k = obj_lookup action k).
Proof.
  intros Hd Hin Hty.
  exists (event_data action).
  assert (Hswitch : forall store,
             switch store action =
             _sendEvent store (strip_description (sym_toString ty))
                        (event_data action)).
  { intros store. apply switch_lifecycle;
      [exact Hty | apply lifecycle_not_failed; assumption
       | apply lifecycle_test; exact Hin]. }
  split; [exact Hswitch|].
  split; [intros store scope next Hm; apply run_one_send; auto|].
  split; [|split; [|split; [|split]]].
  - rewrite event_data_lookup. simpl key_eqb. rewrite orb_true_r. reflexivity.
  - rewrite event_data_lookup. simpl key_eqb. reflexivity.
  - intros Hc. rewrite event_data_lookup, Hc. reflexivity.
  - intros Hc. split.
    + unfold conference_event_data. rewrite Hc. reflexivity.
    + rewrite event_data_lookup, Hc. reflexivity.
  - intros k Hcf Ht Hu. apply key_eqb_neq in Hcf, Ht, Hu.
    rewrite event_data_lookup, Hcf, Ht, Hu. reflexivity.
Qed.

(** C4, as amended. An action has one symbolic tag, its [type]: the tag
    the [switch] matches on is the tag the event is named by. With an app
    of scope [scope] mounted, an action whose [type] is [LOAD_CONFIG_ERROR]
    and whose error gives the string [s] leads to exactly one call
    [sendEvent(name, { error: s, url: toURLString(locationURL) }, scope)],
    where [name] is the description of [LOAD_CONFIG_ERROR], whatever other
    fields the action carries; so for the error ["network down"] and the
    location ["http://cfg/x.json"] the call is [sendEvent(name, { error:
    "network down", url: toURLString("http://cfg/x.json") }, scope)]. An
    action whose [type] is a tag that is none of the six action types of the
    [switch] leads to no call. *)
Theorem C4_config_error_event (store : Store) (scope : value)
        (next : object -> value) (action : object) :
  distinct_symbols all_types = true ->
  mounted store scope ->
  (forall s,
      obj_get action (KStr "type") = VSym LOAD_CONFIG_ERROR ->
      error_string (obj_get action (KStr "error")) = Normal s ->
      run store next action =
      ([NextCall action;
        HostSend (strip_description (sym_toString LOAD_CONFIG_ERROR))
                 [(KStr "error", VStr s);
                  (KStr "url", toURLString (obj_get action (KStr "locationURL")))]
                 scope],
       Normal (next action)))
  /\ (obj_get action (KStr "type") = VSym LOAD_CONFIG_ERROR ->
      obj_get action (KStr "error") = VStr "network down" ->
      obj_get action (KStr "locationURL") = VStr "http://cfg/x.json" ->
      run store next action =
      ([NextCall action;
        HostSend (strip_description (sym_toString LOAD_CONFIG_ERROR))
                 [(KStr "error", VStr "network down");
                  (KStr "url", toURLString (VStr "http://cfg/x.json"))]
                 scope],
       Normal (next action)))
  /\ (forall tag,
         obj_get action (KStr "type") = VSym tag ->
         occurs tag all_types = false ->
         run store next action = ([NextCall action], Normal (next action))).
Proof.
  intros Hd Hm.
  assert (Hsend : forall s,
             obj_get action (KStr "type") = VSym LOAD_CONFIG_ERROR ->
             error_string (obj_get action (KStr "error")) = Normal s ->
             run store next action =
             ([NextCall action;
               HostSend (strip_description (sym_toString LOAD_CONFIG_ERROR))
                        [(KStr "error", VStr s);
                         (KStr "url",
                          toURLString (obj_get action (KStr "locationURL")))]
                        scope],
              Normal (next action))).
  { intros s Hty Hs.
    destruct (config_error_only LOAD_CONFIG_ERROR Hd eq_refl) as [Hf Hl].
    rewrite run_eq.
    rewrite (switch_config_error store action LOAD_CONFIG_ERROR Hty Hf Hl
               (symbol_eqb_refl _)).
    rewrite Hs, bind_lift_Normal.
    rewrite (sendEvent_mounted store scope _ _ Hm). reflexivity. }
  split; [exact Hsend|]. split.
  - intros Hty Herr Hloc.
    rewrite (Hsend "network down" Hty) by (rewrite Herr; reflexivity).
    rewrite Hloc. reflexivity.
  - intros tag Hty Hocc. rewrite run_eq. unfold switch_type.
    rewrite Hty. simpl is_type. simpl in Hocc.
    repeat (rewrite ?orb_false_iff in Hocc).
    destruct Hocc as (H1 & H2 & H3 & H4 & H5 & H6 & _).
    rewrite H1, H2, H3, H4, H5, H6. reflexivity.
Qed.

(** C7. When no app is mounted, or the mounted app has no truthy
    [externalAPIScope], [_sendEvent] makes no call of the native
    [sendEvent] and completes without an exception, whatever the event;
    the trace, which holds every effect of the bridge, stays empty, so
    nothing is logged either; and the middleware as a whole makes no call,
    whatever the action. Whenever the native [sendEvent] is called at all,
    the scope it gets is the truthy [externalAPIScope] of the mounted
    app. *)
Theorem C7_no_destination_no_call (store : Store) (next : object -> value)
        (action : object) (name : string) (data : object) :
  unmounted store \/ scopeless store ->
  _sendEvent store name data = ([], Normal tt)
  /\ host_sends (trace (run store next action)) = []
  /\ (forall store' name' data' scope,
         In (HostSend name' data' scope) (trace (run store' next action)) ->
         mounted store' scope /\ ToBoolean scope = true).
Proof.
  intros Hidle. split; [|split].
  - destruct Hidle; [apply sendEvent_unmounted | apply sendEvent_scopeless];
      assumption.
  - rewrite run_host_sends.
    destruct (switch_at_most_one store action)
      as [H | [[e H] | (n & d & sc & Hm & H)]]; try (rewrite H; reflexivity).
    exfalso. exact (mounted_not_idle store sc Hm Hidle).
  - intros store' name' data' scope Hin.
    rewrite run_eq in Hin. simpl in Hin. destruct Hin as [Hin | Hin]; [discriminate|].
    destruct (switch_at_most_one store' action)
      as [H | [[e H] | (n & d & sc & Hm & H)]]; rewrite H in Hin; simpl in Hin;
      try contradiction.
    destruct Hin as [Hin | []]. inversion Hin; subst.
    split; [exact Hm|].
    destruct Hm as (fa & app & props & _ & _ & _ & _ & _ & Hs). exact Hs.
Qed.

(** C8, as amended. The middleware calls [next] exactly once, with the
    action as it got it, before anything else: the trace starts with that
    call and holds only calls of the native [sendEvent] after it. Whenever
    it completes, it returns what [next] returned; it does not complete for
    every action, since it can throw after [next] has run. An action of
    none of the six types completes with the result of [next] and no other
    effect. *)
Theorem C8_next_first_result_returned (store : Store) (next : object -> value)
        (action : object) :
  exists sent,
    trace (run store next action) = NextCall action :: sent
    /\ (forall e, In e sent -> is_send e = true)
    /\ (outcome (run store next action) = Normal (next action)
        \/ exists e, outcome (run store next action) = Throw e)
    /\ ((forall c, In c all_types -> is_type (obj_get action (KStr "type")) c = false) ->
        run store next action = ([NextCall action], Normal (next action))).
Proof.
  exists (trace (switch store action)). rewrite run_eq.
  split; [reflexivity|]. split; [|split].
  - destruct (switch_at_most_one store action)
      as [H | [[e H] | (n & d & sc & _ & H)]]; rewrite H; simpl; intros e0 Hin;
      try contradiction.
    destruct Hin as [<- | []]. reflexivity.
  - unfold outcome at 1 3. cbn [snd].
    destruct (outcome (switch store action)) as [[]|e]; eauto.
  - intros Hnone. unfold switch_type.
    rewrite !Hnone by (simpl; auto 10). reflexivity.
Qed.

(** C9, as amended. For every event the middleware sends, the name is the
    description of the [type] of the action, and the data hold neither
    [type] nor [conference]. Each value in the data is the string which
    [_toErrorString] makes from the [error] of the action, under [error];
    or, under [url], what [toURLString] makes from the URL held by the
    truthy [conference] of the action or, for a [LOAD_CONFIG_ERROR] action,
    from its [locationURL]; or a field of the action passed through as it
    is. So the data are serializable whenever [toURLString] gives
    serializable values and the fields of the action that are passed
    through are serializable; nothing in the middleware makes them so. *)
Theorem C9_event_contents (store : Store) (next : object -> value)
        (action : object) (name : string) (data : object) (scope : value) :
  wf_object action = true ->
  In (HostSend name data scope) (trace (run store next action)) ->
  (exists ty,
      obj_get action (KStr "type") = VSym ty /\ describe (VSym ty) = Normal name)
  /\ obj_lookup data (KStr "type") = None
  /\ obj_lookup data (KStr "conference") = None
  /\ (forall k v,
         obj_lookup data k = Some v ->
         (k = KStr "error"
          /\ exists s,
              error_string (obj_get action (KStr "error")) = Normal s
              /\ v = VStr s)
         \/ (k = KStr "url"
             /\ (ToBoolean (obj_get action (KStr "conference")) = true
                 /\ v = toURLString (GetV (obj_get action (KStr "conference"))
                                          JITSI_CONFERENCE_URL_KEY)
                 \/ obj_get action (KStr "type") = VSym LOAD_CONFIG_ERROR
                    /\ v = toURLString (obj_get action (KStr "locationURL"))))
         \/ (obj_lookup action k = Some v
             /\ (k = KStr "error" ->
                 is_type (obj_get action (KStr "type")) CONFERENCE_FAILED = false)))
  /\ ((forall u, serializable (toURLString u) = true) ->
      (forall k v,
          obj_lookup action k = Some v ->
          k <> KStr "type" -> k <> KStr "conference" ->
          (k = KStr "error" ->
           is_type (obj_get action (KStr "type")) CONFERENCE_FAILED = false) ->
          serializable v = true) ->
      forall k v, obj_lookup data k = Some v -> serializable v = true).
Proof.
  intros Hwf Hin.
  rewrite run_eq in Hin. simpl in Hin. destruct Hin as [Hin | Hin]; [discriminate|].
  apply switch_send_inv in Hin; [|exact Hwf].
  destruct Hin as (ty & Hty & Hname & Hdata).
  assert (Habsent : obj_lookup data (KStr "type") = None
                    /\ obj_lookup data (KStr "conference") = None).
  { destruct Hdata as [(_ & s & _ & ->) | [(_ & ->) | (_ & s & _ & ->)]];
      rewrite ?event_data_lookup; split; reflexivity. }
  assert (Hfrom : forall k v,
             obj_lookup data k = Some v ->
             (k = KStr "error"
              /\ exists s,
                  error_string (obj_get action (KStr "error")) = Normal s
                  /\ v = VStr s)
             \/ (k = KStr "url"
                 /\ (ToBoolean (obj_get action (KStr "conference")) = true
                     /\ v = toURLString (GetV (obj_get action (KStr "conference"))
                                              JITSI_CONFERENCE_URL_KEY)
                     \/ obj_get action (KStr "type") = VSym LOAD_CONFIG_ERROR
                        /\ v = toURLString (obj_get action (KStr "locationURL"))))
             \/ (obj_lookup action k = Some v
                 /\ (k = KStr "error" ->
                     is_type (obj_get action (KStr "type")) CONFERENCE_FAILED = false))).
  { intros k v Hk.
    destruct Hdata as [(-> & s & Hes & ->) | [(Hf & ->) | (-> & s & Hes & ->)]].
    - rewrite event_data_lookup in Hk.
      rewrite failed_argument_get in Hk by (assumption || reflexivity).
      rewrite failed_argument_lookup in Hk by exact Hwf.
      destruct (key_eqb k (KStr "url")
                && ToBoolean (obj_get action (KStr "conference"))) eqn:Eu.
      + apply andb_true_iff in Eu. destruct Eu as [Eu Ec].
        apply key_eqb_eq in Eu. inversion Hk. right; left. auto.
      + destruct (key_eqb k (KStr "type") || key_eqb k (KStr "conference"));
          [discriminate|].
        destruct (key_eqb k (KStr "error")) eqn:Ee.
        * apply key_eqb_eq in Ee. inversion Hk. subst. left. eauto.
        * right; right. split; [exact Hk|].
          intros ->. discriminate.
    - rewrite event_data_lookup in Hk.
      destruct (key_eqb k (KStr "url")
                && ToBoolean (obj_get action (KStr "conference"))) eqn:Eu.
      + apply andb_true_iff in Eu. destruct Eu as [Eu Ec].
        apply key_eqb_eq in Eu. inversion Hk. right; left. auto.
      + destruct (key_eqb k (KStr "type") || key_eqb k (KStr "conference"));
          [discriminate|].
        right; right. split; [exact Hk|].
        intros _. rewrite Hty. exact Hf.
    - simpl in Hk.
      destruct (key_eqb k (KStr "error")) eqn:Ee.
      + apply key_eqb_eq in Ee. inversion Hk. subst. left. eauto.
      + destruct (key_eqb k (KStr "url")) eqn:Eu; [|discriminate].
        apply key_eqb_eq in Eu. inversion Hk. right; left. auto. }
  split; [|split; [|split; [|split]]].
  - exists ty. split; [exact Hty|].
    rewrite getSymbolDescription_symbol, Hname. reflexivity.
  - apply Habsent.
  - apply Habsent.
  - exact Hfrom.
  - intros Hurl Hpass k v Hk.
    destruct (Hfrom k v Hk)
      as [(_ & s & _ & ->) | [(_ & [(_ & ->) | (_ & ->)]) | (Ha & He)]].
    + reflexivity.
    + apply Hurl.
    + apply Hurl.
    + apply (Hpass k v Ha); [| |exact He]; intros ->;
        destruct Habsent as [Ht Hc]; congruence.
Qed.


End Bridge.

(** ** The claims at concrete actions *)

(** At the action [{ type: CONFERENCE_FAILED, error: { name:
    "conference.passwordRequired", recoverable: true }, conference }]. *)
Lemma C1_recoverable_error_sends_nothing_witness :
  Sample.run Sample.LOAD_CONFIG_ERROR (Sample.mounted_store (VStr "room1"))
             Sample.next Sample.failed_recoverable
  = ([NextCall Sample.failed_recoverable], Normal (Sample.next Sample.failed_recoverable)).
Proof.
  apply (C1_recoverable_error_sends_nothing
           Sample.CONFERENCE_FAILED Sample.CONFERENCE_JOINED Sample.CONFERENCE_LEFT
           Sample.CONFERENCE_WILL_JOIN Sample.CONFERENCE_WILL_LEAVE
           Sample.LOAD_CONFIG_ERROR Sample.JITSI_CONFERENCE_URL_KEY
           Sample.toURLString Sample.ObjectToString
           (Sample.mounted_store (VStr "room1")) Sample.next
           Sample.failed_recoverable (VBool true)).
  - reflexivity.
  - reflexivity.
  - reflexivity.
Defined.

(** The action [{ type: CONFERENCE_FAILED, error: "boom", recoverable: true }]
    has the flag on the action itself, and an event is sent for it. *)
Lemma C1_counterexample :
  obj_get Sample.failed_flag_on_action (KStr "type") = VSym Sample.CONFERENCE_FAILED
  /\ obj_get Sample.failed_flag_on_action (KStr "recoverable") = VBool true
  /\ host_sends (trace (Sample.run Sample.LOAD_CONFIG_ERROR
                          (Sample.mounted_store (VStr "room1"))
                          Sample.next Sample.failed_flag_on_action))
     = [HostSend "CONFERENCE_FAILED"
                 [(KStr "error", VStr "boom"); (KStr "recoverable", VBool true)]
                 (VStr "room1")].
Proof. repeat split. Qed.

(** At the action [{ type: CONFERENCE_FAILED, error: "boom", recoverable:
    false, conference }] with the scope ["room1"]. *)
Lemma C2_failed_event_witness :
  exists data,
    Sample.run Sample.LOAD_CONFIG_ERROR (Sample.mounted_store (VStr "room1"))
               Sample.next Sample.failed_in_room
    = ([NextCall Sample.failed_in_room;
        HostSend "CONFERENCE_FAILED" data (VStr "room1")],
       Normal (Sample.next Sample.failed_in_room))
    /\ obj_lookup data (KStr "error") = Some (VStr "boom")
    /\ obj_lookup data (KStr "conference") = None
    /\ obj_lookup data (KStr "url") = Some (VStr "https://example.com/room")
    /\ obj_lookup data (KStr "recoverable") = Some (VBool false).
Proof.
  destruct (C2_failed_event
              Sample.CONFERENCE_FAILED Sample.CONFERENCE_JOINED Sample.CONFERENCE_LEFT
              Sample.CONFERENCE_WILL_JOIN Sample.CONFERENCE_WILL_LEAVE
              Sample.LOAD_CONFIG_ERROR Sample.JITSI_CONFERENCE_URL_KEY
              Sample.toURLString Sample.ObjectToString
              Sample.failed_in_room VUndefined "boom")
    as (data & _ & Hrun & Herr & _ & Hconf & Hurl & Hrest).
  - reflexivity.
  - reflexivity.
  - reflexivity.
  - reflexivity.
  - reflexivity.
  - exists data. split.
    { apply Hrun.
      exists (VObj [(KStr "app", VObj [(KStr "props",
                      VObj [(KStr "externalAPIScope", VStr "room1")])])]),
             (VObj [(KStr "props", VObj [(KStr "externalAPIScope", VStr "room1")])]),
             (VObj [(KStr "externalAPIScope", VStr "room1")]).
      repeat split. }
    split; [exact Herr|]. split; [exact Hconf|]. split; [exact Hurl|].
    rewrite Hrest by discriminate. reflexivity.
Defined.

(** [conference] is a field of the action other than [error] and [type],
    and it is not in the data, which have a [url] instead; and an action
    with [recoverable: false] and no error produces no event at all. *)
Lemma C2_counterexample :
  obj_get Sample.failed_in_room (KStr "recoverable") = VBool false
  /\ obj_lookup Sample.failed_in_room (KStr "conference") = Some Sample.room
  /\ obj_lookup Sample.failed_in_room (KStr "url") = None
  /\ Sample.run Sample.LOAD_CONFIG_ERROR (Sample.mounted_store (VStr "room1"))
                Sample.next Sample.failed_in_room
     = ([NextCall Sample.failed_in_room;
         HostSend "CONFERENCE_FAILED"
                  [(KStr "error", VStr "boom");
                   (KStr "recoverable", VBool false);
                   (KStr "url", VStr "https://example.com/room")]
                  (VStr "room1")],
        Normal (Sample.next Sample.failed_in_room))
  /\ Sample.run Sample.LOAD_CONFIG_ERROR (Sample.mounted_store (VStr "room1"))
                Sample.next
                [(KStr "type", VSym Sample.CONFERENCE_FAILED);
                 (KStr "recoverable", VBool false)]
     = ([NextCall [(KStr "type", VSym Sample.CONFERENCE_FAILED);
                   (KStr "recoverable", VBool false)]],
        Throw TypeError).
Proof. repeat split. Qed.

(** At the action [{ type: CONFERENCE_JOINED, conference }]. *)
Lemma C3_lifecycle_event_witness :
  exists data,
    Sample.run Sample.LOAD_CONFIG_ERROR (Sample.mounted_store (VStr "room1"))
               Sample.next Sample.joined
    = ([NextCall Sample.joined; HostSend "CONFERENCE_JOINED" data (VStr "room1")],
       Normal (Sample.next Sample.joined))
    /\ obj_lookup data (KStr "conference") = None
    /\ obj_lookup data (KStr "type") = None
    /\ obj_lookup data (KStr "url") = Some (VStr "https://example.com/room").
Proof.
  destruct (C3_lifecycle_event
              Sample.CONFERENCE_FAILED Sample.CONFERENCE_JOINED Sample.CONFERENCE_LEFT
              Sample.CONFERENCE_WILL_JOIN Sample.CONFERENCE_WILL_LEAVE
              Sample.LOAD_CONFIG_ERROR Sample.JITSI_CONFERENCE_URL_KEY
              Sample.toURLString Sample.ObjectToString
              Sample.joined Sample.CONFERENCE_JOINED)
    as (data & _ & Hrun & Hconf & Hty & Hurl & _).
  - reflexivity.
  - left. reflexivity.
  - reflexivity.
  - exists data. split.
    { apply Hrun.
      exists (VObj [(KStr "app", VObj [(KStr "props",
                      VObj [(KStr "externalAPIScope", VStr "room1")])])]),
             (VObj [(KStr "props", VObj [(KStr "externalAPIScope", VStr "room1")])]),
             (VObj [(KStr "externalAPIScope", VStr "room1")]).
      repeat split. }
    split; [exact Hconf|]. split; [exact Hty|]. apply Hurl. reflexivity.
Defined.

(** The action [{ type: CONFERENCE_LEFT, url: "https://example.com/old" }]
    has no [conference], and its event has a [url]. *)
Lemma C3_counterexample :
  obj_lookup Sample.left_with_url (KStr "conference") = None
  /\ Sample.run Sample.LOAD_CONFIG_ERROR (Sample.mounted_store (VStr "room1"))
                Sample.next Sample.left_with_url
     = ([NextCall Sample.left_with_url;
         HostSend "CONFERENCE_LEFT"
                  [(KStr "url", VStr "https://example.com/old")]
                  (VStr "room1")],
        Normal (Sample.next Sample.left_with_url))
  /\ obj_lookup [(KStr "url", VStr "https://example.com/old")] (KStr "url")
     = Some (VStr "https://example.com/old").
Proof. repeat split. Qed.

(** With [LOAD_CONFIG_ERROR] described by ["config.fetch.error"], at the
    action [{ type: LOAD_CONFIG_ERROR, error: "network down", locationURL:
    "http://cfg/x.json" }] and the scope ["room1"]. *)
Lemma C4_config_error_event_witness :
  Sample.run Sample.CONFIG_FETCH_ERROR (Sample.mounted_store (VStr "room1"))
             Sample.next (Sample.config_failed Sample.CONFIG_FETCH_ERROR)
  = ([NextCall (Sample.config_failed Sample.CONFIG_FETCH_ERROR);
      HostSend "config.fetch.error"
               [(KStr "error", VStr "network down");
                (KStr "url", VStr "http://cfg/x.json")]
               (VStr "room1")],
     Normal (Sample.next (Sample.config_failed Sample.CONFIG_FETCH_ERROR))).
Proof.
  destruct (C4_config_error_event
              Sample.CONFERENCE_FAILED Sample.CONFERENCE_JOINED Sample.CONFERENCE_LEFT
              Sample.CONFERENCE_WILL_JOIN Sample.CONFERENCE_WILL_LEAVE
              Sample.CONFIG_FETCH_ERROR Sample.JITSI_CONFERENCE_URL_KEY
              Sample.toURLString Sample.ObjectToString
              (Sample.mounted_store (VStr "room1")) (VStr "room1") Sample.next
              (Sample.config_failed Sample.CONFIG_FETCH_ERROR))
    as (_ & Hcall & _).
  - reflexivity.
  - exists (VObj [(KStr "app", VObj [(KStr "props",
                    VObj [(KStr "externalAPIScope", VStr "room1")])])]),
           (VObj [(KStr "props", VObj [(KStr "externalAPIScope", VStr "room1")])]),
           (VObj [(KStr "externalAPIScope", VStr "room1")]).
    repeat split.
  - apply Hcall; reflexivity.
Defined.

(** With [LOAD_CONFIG_ERROR] described by its own name: an action of that
    type carrying a second tag described by ["config.fetch.error"] is
    named ["LOAD_CONFIG_ERROR"], and an action whose [type] is the second
    tag produces no event. *)
Lemma C4_counterexample :
  Sample.run Sample.LOAD_CONFIG_ERROR (Sample.mounted_store (VStr "room1"))
             Sample.next
             (Sample.config_failed_tagged Sample.LOAD_CONFIG_ERROR
                                          Sample.CONFIG_FETCH_ERROR)
  = ([NextCall (Sample.config_failed_tagged Sample.LOAD_CONFIG_ERROR
                                            Sample.CONFIG_FETCH_ERROR);
      HostSend "LOAD_CONFIG_ERROR"
               [(KStr "error", VStr "network down");
                (KStr "url", VStr "http://cfg/x.json")]
               (VStr "room1")],
     Normal (Sample.next (Sample.config_failed_tagged Sample.LOAD_CONFIG_ERROR
                                                      Sample.CONFIG_FETCH_ERROR)))
  /\ "LOAD_CONFIG_ERROR" <> "config.fetch.error"
  /\ host_sends (trace (Sample.run Sample.LOAD_CONFIG_ERROR
                          (Sample.mounted_store (VStr "room1")) Sample.next
                          (Sample.config_failed Sample.CONFIG_FETCH_ERROR)))
     = [].
Proof. repeat split. discriminate. Qed.

(** At a store with nothing mounted and the action
    [{ type: CONFERENCE_JOINED, conference }]. *)
Lemma C7_no_destination_no_call_witness :
  _sendEvent Sample.idle_store "CONFERENCE_JOINED" [] = ([], Normal tt)
  /\ host_sends (trace (Sample.run Sample.LOAD_CONFIG_ERROR Sample.idle_store
                          Sample.next Sample.joined)) = [].
Proof.
  destruct (C7_no_destination_no_call
              Sample.CONFERENCE_FAILED Sample.CONFERENCE_JOINED Sample.CONFERENCE_LEFT
              Sample.CONFERENCE_WILL_JOIN Sample.CONFERENCE_WILL_LEAVE
              Sample.LOAD_CONFIG_ERROR Sample.JITSI_CONFERENCE_URL_KEY
              Sample.toURLString Sample.ObjectToString
              Sample.idle_store Sample.next Sample.joined "CONFERENCE_JOINED" [])
    as (Hsend & Hrun & _).
  - left. exists (VObj []), VUndefined. repeat split.
  - split; [exact Hsend | exact Hrun].
Defined.

(** At an action of another feature. *)
Lemma C8_next_first_result_returned_witness :
  Sample.run Sample.LOAD_CONFIG_ERROR (Sample.mounted_store (VStr "room1"))
             Sample.next Sample.unrelated
  = ([NextCall Sample.unrelated], Normal (Sample.next Sample.unrelated)).
Proof.
  destruct (C8_next_first_result_returned
              Sample.CONFERENCE_FAILED Sample.CONFERENCE_JOINED Sample.CONFERENCE_LEFT
              Sample.CONFERENCE_WILL_JOIN Sample.CONFERENCE_WILL_LEAVE
              Sample.LOAD_CONFIG_ERROR Sample.JITSI_CONFERENCE_URL_KEY
              Sample.toURLString Sample.ObjectToString
              (Sample.mounted_store (VStr "room1")) Sample.next Sample.unrelated)
    as (sent & _ & _ & _ & Hnone).
  apply Hnone.
  intros c [<- | [<- | [<- | [<- | [<- | [<- | []]]]]]]; reflexivity.
Defined.

(** The action [{ type: CONFERENCE_FAILED }] goes through [next], and the
    middleware then throws instead of returning the result of [next]. *)
Lemma C8_counterexample :
  Sample.run Sample.LOAD_CONFIG_ERROR (Sample.mounted_store (VStr "room1"))
             Sample.next Sample.failed_without_error
  = ([NextCall Sample.failed_without_error], Throw TypeError)
  /\ outcome (Sample.run Sample.LOAD_CONFIG_ERROR
                (Sample.mounted_store (VStr "room1"))
                Sample.next Sample.failed_without_error)
     <> Normal (Sample.next Sample.failed_without_error).
Proof. split; [reflexivity | discriminate]. Qed.

(** At the event of the action [{ type: CONFERENCE_JOINED, conference }]. *)
Lemma C9_event_contents_witness :
  obj_lookup [(KStr "url", VStr "https://example.com/room")] (KStr "type") = None
  /\ serializable (VStr "https://example.com/room") = true.
Proof.
  destruct (C9_event_contents
              Sample.CONFERENCE_FAILED Sample.CONFERENCE_JOINED Sample.CONFERENCE_LEFT
              Sample.CONFERENCE_WILL_JOIN Sample.CONFERENCE_WILL_LEAVE
              Sample.LOAD_CONFIG_ERROR Sample.JITSI_CONFERENCE_URL_KEY
              Sample.toURLString Sample.ObjectToString
              (Sample.mounted_store (VStr "room1")) Sample.next Sample.joined
              "CONFERENCE_JOINED" [(KStr "url", VStr "https://example.com/room")]
              (VStr "room1"))
    as (_ & Hty & _ & _ & Hser).
  - reflexivity.
  - simpl. right. left. reflexivity.
  - split; [exact Hty|].
    apply (Hser (fun u => match u with VStr _ => eq_refl | _ => eq_refl end))
      with (k := KStr "url"); [|reflexivity].
    intros k v Hk Ht Hc _. exfalso. simpl in Hk.
    destruct (key_eqb k (KStr "type")) eqn:Et;
      [apply key_eqb_eq in Et; contradiction|].
    destruct (key_eqb k (KStr "conference")) eqn:Ec;
      [apply key_eqb_eq in Ec; contradiction | discriminate].
Defined.

(** The action [{ type: CONFERENCE_JOINED, track: { muted: false }, reason:
    Symbol("reason") }]: the object and the symbol are sent as they are. *)
Lemma C9_counterexample :
  Sample.run Sample.LOAD_CONFIG_ERROR (Sample.mounted_store (VStr "room1"))
             Sample.next Sample.joined_with_handles
  = ([NextCall Sample.joined_with_handles;
      HostSend "CONFERENCE_JOINED"
               [(KStr "track", VObj [(KStr "muted", VBool false)]);
                (KStr "reason", VSym (native_symbol 8 "reason"))]
               (VStr "room1")],
     Normal (Sample.next Sample.joined_with_handles))
  /\ serializable (VObj [(KStr "muted", VBool false)]) = false
  /\ serializable (VSym (native_symbol 8 "reason")) = false.
Proof. repeat split. Qed.


(** * Further properties of the code *)

(** ** [_getSymbolDescription] *)

Lemma strip_description_polyfill (d : string) :
  strip_description ("@@" ++ d) = d.
Proof.
  unfold strip_description.
  assert (Hw : startsWith ("@@" ++ d) "Symbol(" = false).
  { reflexivity. }
  rewrite Hw. simpl andb. cbv iota.
  assert (Hs : startsWith ("@@" ++ d) "@@" = true).
  { unfold startsWith. simpl.
    repeat (match goal with |- context [ascii_dec ?a ?a] =>
              destruct (ascii_dec a a); [|congruence] end).
    destruct d; reflexivity. }
  rewrite Hs. unfold slice, clamp_index.
  replace (String.length ("@@" ++ d)) with (2 + String.length d) by reflexivity.
  change (2 <? 0)%Z with false. cbv iota.
  rewrite Z.min_l by lia.
  replace (Z.to_nat (Z.max (Z.of_nat (2 + String.length d) - 2) 0))
    with (String.length d) by lia.
  change (Z.to_nat 2) with 2. simpl. apply substring_all.
Qed.

Lemma substring_is_prefix (s : string) (m : nat) :
  exists post, s = substring 0 m s ++ post.
Proof.
  revert m. induction s as [|c s IH]; intros m.
  - exists "". destruct m; reflexivity.
  - destruct m as [|m]; simpl.
    + exists (String c s). reflexivity.
    + destruct (IH m) as [post Hpost]. exists post. simpl. congruence.
Qed.

Lemma substring_contains (s : string) (n m : nat) :
  contains s (substring n m s).
Proof.
  revert n. induction s as [|c s IH]; intros n.
  - exists "", "". destruct n, m; reflexivity.
  - destruct n as [|n].
    + destruct (substring_is_prefix (String c s) m) as [post Hpost].
      exists "", post. exact Hpost.
    + simpl. destruct (IH n) as (pre & post & H).
      exists (String c pre), post. simpl. congruence.
Qed.

Lemma contains_trans (a b c : string) :
  contains a b -> contains b c -> contains a c.
Proof.
  intros (p1 & q1 & ->) (p2 & q2 & ->).
  exists (p1 ++ p2), (q2 ++ q1).
  rewrite !append_assoc. reflexivity.
Qed.

Lemma strip_description_contains (d : string) :
  contains d (strip_description d).
Proof.
  unfold strip_description.
  destruct (startsWith d "Symbol(" && endsWith d ")").
  - destruct (startsWith (slice d 7 (Some (-1)%Z)) "@@").
    + eapply contains_trans; unfold slice; apply substring_contains.
    + unfold slice. apply substring_contains.
  - destruct (startsWith d "@@").
    + unfold slice. apply substring_contains.
    + apply contains_refl.
Qed.

(** X4. One description, one name, in every environment: a tag described
    by [d], where [d] does not itself start with ["@@"], is named [d]
    whether [toString()] gives ["Symbol(d)"], ["@@d"] or ["Symbol(@@d)"]. For
    the text ["@@d"] this holds for every [d]. *)
Theorem X4_same_name_in_every_rendering
        (ObjectToString : object -> completion string) (s : symbol) (d : string) :
  startsWith d "@@" = false ->
  sym_toString s = "Symbol(" ++ d ++ ")"
  \/ sym_toString s = "@@" ++ d
  \/ sym_toString s = "Symbol(" ++ ("@@" ++ d) ++ ")" ->
  _getSymbolDescription ObjectToString (VSym s) = Normal d.
Proof.
  intros Hd Htext. rewrite getSymbolDescription_symbol. f_equal.
  destruct Htext as [-> | [-> | ->]].
  - rewrite strip_description_native, Hd. reflexivity.
  - apply strip_description_polyfill.
  - rewrite strip_description_native.
    fold (strip_description ("@@" ++ d)).
    pose proof (strip_description_polyfill d) as H.
    unfold strip_description in H.
    assert (Hw : startsWith ("@@" ++ d) "Symbol(" = false).
    { reflexivity. }
    rewrite Hw in H. simpl andb in H. cbv iota in H. exact H.
Qed.

Lemma X4_same_name_in_every_rendering_witness :
  _getSymbolDescription Sample.ObjectToString
    (VSym (polyfill_symbol 2 "CONFERENCE_JOINED")) = Normal "CONFERENCE_JOINED".
Proof.
  apply (X4_same_name_in_every_rendering Sample.ObjectToString
           (polyfill_symbol 2 "CONFERENCE_JOINED") "CONFERENCE_JOINED").
  - reflexivity.
  - right. left. reflexivity.
Defined.

(** X5. The name of a tag is cut out of the text [toString()] gives for
    it: it occurs in that text as one piece and is never longer. *)
Theorem X5_name_is_part_of_text
        (ObjectToString : object -> completion string) (s : symbol) (name : string) :
  _getSymbolDescription ObjectToString (VSym s) = Normal name ->
  contains (sym_toString s) name
  /\ String.length name <= String.length (sym_toString s).
Proof.
  rewrite getSymbolDescription_symbol. intros H. injection H as <-.
  split; [apply strip_description_contains | apply strip_description_length].
Qed.

Lemma X5_name_is_part_of_text_witness :
  contains "Symbol(@@conference.joined)" "conference.joined"
  /\ String.length "conference.joined" <= String.length "Symbol(@@conference.joined)".
Proof.
  apply (X5_name_is_part_of_text Sample.ObjectToString
           (native_symbol 2 "@@conference.joined") "conference.joined").
  reflexivity.
Defined.

(** ** [_toErrorString] *)

(** X9. The text of an error is made without running code of the error
    object: unless its [name] or its [message] is itself an object, the
    result does not depend on how objects convert themselves to strings. *)
Theorem X9_error_text_without_user_code
        (ObjectToString ObjectToString' : object -> completion string)
        (error : value) :
  (forall o o', error = VObj o ->
                obj_get o (KStr "name") <> VObj o'
                /\ obj_get o (KStr "message") <> VObj o') ->
  _toErrorString ObjectToString error = _toErrorString ObjectToString' error.
Proof.
  intros H. destruct error as [| | | | | |o]; try reflexivity.
  unfold _toErrorString. simpl.
  assert (Hn : forall o', obj_get o (KStr "name") <> VObj o')
    by (intros o'; apply (H o o' eq_refl)).
  assert (Hm : forall o', obj_get o (KStr "message") <> VObj o')
    by (intros o'; apply (H o o' eq_refl)).
  destruct (obj_get o (KStr "name")) as [| |[|]| | | |n];
    try (exfalso; apply (Hn n); reflexivity);
    destruct (obj_get o (KStr "message")) as [| |[|]| | | |m];
    try (exfalso; apply (Hm m); reflexivity);
    reflexivity.
Qed.

Lemma X9_error_text_without_user_code_witness :
  _toErrorString Sample.ObjectToString
    (VObj [(KStr "name", VStr "TypeError"); (KStr "stack", VObj [])])
  = _toErrorString (fun _ => Throw TypeError)
      (VObj [(KStr "name", VStr "TypeError"); (KStr "stack", VObj [])]).
Proof.
  apply (X9_error_text_without_user_code Sample.ObjectToString
           (fun _ => Throw TypeError)
           (VObj [(KStr "name", VStr "TypeError"); (KStr "stack", VObj [])])).
  intros o o' H. injection H as <-. split; discriminate.
Defined.

(** ** [_sendEvent] *)

Lemma Get_nullish (v : value) (k : key) :
  Get v k = if nullish v then Throw TypeError else Normal (GetV v k).
Proof. destruct v; reflexivity. Qed.


(** X3. What [_sendEvent] does is read off the state. When the state or
    its ['features/app'] slice is [undefined] or [null], or a truthy [app]
    has [undefined] or [null] for its [props], it throws a [TypeError]
    before any native call. In every other state it makes exactly the one
    call [sendEvent(name, data, scope)] when [app] and its
    [externalAPIScope] are truthy, and otherwise completes without a call.
    What the native call does in its turn is no part of the statement. *)
Theorem X3_sendEvent_by_state (store : Store) (name : string) (data : object) :
  let state := getState store in
  let features_app := GetV state (KStr "features/app") in
  let app := GetV features_app (KStr "app") in
  let props := GetV app (KStr "props") in
  let scope := GetV props (KStr "externalAPIScope") in
  let unreadable :=
    nullish state || nullish features_app || (ToBoolean app && nullish props) in
  (unreadable = true -> _sendEvent store name data = ([], Throw TypeError))
  /\ (unreadable = false ->
      trace (_sendEvent store name data) =
      (if ToBoolean app && ToBoolean scope
       then [HostSend name data scope]
       else []))
  /\ (unreadable = false ->
      ToBoolean app && ToBoolean scope = false ->
      _sendEvent store name data = ([], Normal tt)).
Proof.
  cbv zeta. unfold _sendEvent.
  rewrite Get_nullish.
  destruct (nullish (getState store)) eqn:E1.
  { simpl. repeat split; try discriminate. }
  rewrite bind_lift_Normal, Get_nullish.
  destruct (nullish (GetV (getState store) (KStr "features/app"))) eqn:E2.
  { simpl. repeat split; try discriminate. }
  rewrite bind_lift_Normal.
  destruct (ToBoolean (GetV (GetV (getState store) (KStr "features/app"))
                            (KStr "app"))) eqn:E3.
  2:{ simpl. repeat split; try discriminate. }
  rewrite (Get_truthy _ _ E3), bind_lift_Normal, Get_nullish.
  destruct (nullish (GetV (GetV (GetV (getState store) (KStr "features/app"))
                                (KStr "app")) (KStr "props"))) eqn:E4.
  { simpl. repeat split; try discriminate. }
  rewrite bind_lift_Normal. simpl.
  match goal with
  | |- context [if ToBoolean ?x then _ else _] => destruct (ToBoolean x)
  end; repeat split; try discriminate.
Qed.

Section Further.

Variables CONFERENCE_FAILED CONFERENCE_JOINED CONFERENCE_LEFT
          CONFERENCE_WILL_JOIN CONFERENCE_WILL_LEAVE
          LOAD_CONFIG_ERROR : symbol.
Variable JITSI_CONFERENCE_URL_KEY : key.
Variable toURLString : value -> value.
Variable ObjectToString : object -> completion string.

Local Abbreviation send_conference :=
  (_sendConferenceEvent JITSI_CONFERENCE_URL_KEY toURLString ObjectToString).
Local Abbreviation event_data :=
  (conference_event_data JITSI_CONFERENCE_URL_KEY toURLString).
Local Abbreviation switch :=
  (switch_type CONFERENCE_FAILED CONFERENCE_JOINED CONFERENCE_LEFT
               CONFERENCE_WILL_JOIN CONFERENCE_WILL_LEAVE LOAD_CONFIG_ERROR
               JITSI_CONFERENCE_URL_KEY toURLString ObjectToString).
Local Abbreviation run :=
  (middleware CONFERENCE_FAILED CONFERENCE_JOINED CONFERENCE_LEFT
              CONFERENCE_WILL_JOIN CONFERENCE_WILL_LEAVE LOAD_CONFIG_ERROR
              JITSI_CONFERENCE_URL_KEY toURLString ObjectToString).
Local Abbreviation error_string := (_toErrorString ObjectToString).
Local Abbreviation all_types :=
  [CONFERENCE_FAILED; CONFERENCE_JOINED; CONFERENCE_LEFT;
   CONFERENCE_WILL_JOIN; CONFERENCE_WILL_LEAVE; LOAD_CONFIG_ERROR].

Lemma run_outcome (store : Store) (next : object -> value) (action : object) :
  outcome (run store next action) =
  match outcome (switch store action) with
  | Normal _ => Normal (next action)
  | Throw e => Throw e
  end.
Proof.
  rewrite (run_eq CONFERENCE_FAILED CONFERENCE_JOINED CONFERENCE_LEFT
             CONFERENCE_WILL_JOIN CONFERENCE_WILL_LEAVE LOAD_CONFIG_ERROR
             JITSI_CONFERENCE_URL_KEY toURLString ObjectToString).
  reflexivity.
Qed.

Lemma run_is_throw (store : Store) (next : object -> value) (action : object) :
  is_throw (outcome (run store next action))
  = is_throw (outcome (switch store action)).
Proof.
  rewrite run_outcome. destruct (outcome (switch store action)); reflexivity.
Qed.

(** ** [_sendConferenceEvent] *)

(** X11. [_sendConferenceEvent] needs the [type] of its argument before
    anything else: without one ([undefined] or [null]) it throws a
    [TypeError], whatever the store and the other fields, and sends
    nothing. *)
Theorem X11_conference_event_needs_type (store : Store) (action : object) :
  nullish (obj_get action (KStr "type")) = true ->
  send_conference store action = ([], Throw TypeError).
Proof.
  intros H.
  rewrite (sendConferenceEvent_eq JITSI_CONFERENCE_URL_KEY toURLString
             ObjectToString store action).
  destruct (obj_get action (KStr "type")); try discriminate H; reflexivity.
Qed.

(** ** The middleware *)

(** X1. One dispatched action leads to at most one call of the native
    [sendEvent], whatever the action and the store. *)
Theorem X1_at_most_one_call (store : Store) (next : object -> value)
        (action : object) :
  List.length (host_sends (trace (run store next action))) <= 1.
Proof.
  rewrite (run_host_sends CONFERENCE_FAILED CONFERENCE_JOINED CONFERENCE_LEFT
             CONFERENCE_WILL_JOIN CONFERENCE_WILL_LEAVE LOAD_CONFIG_ERROR
             JITSI_CONFERENCE_URL_KEY toURLString ObjectToString).
  destruct (switch_at_most_one CONFERENCE_FAILED CONFERENCE_JOINED CONFERENCE_LEFT
              CONFERENCE_WILL_JOIN CONFERENCE_WILL_LEAVE LOAD_CONFIG_ERROR
              JITSI_CONFERENCE_URL_KEY toURLString ObjectToString store action)
    as [H | [[e H] | (n & d & sc & _ & H)]]; rewrite H; simpl; lia.
Qed.



(** X8. The event of a [LOAD_CONFIG_ERROR] action is made from [error] and
    [locationURL] and nothing else: two such actions that agree on these
    two fields lead to the same call, whatever other fields they carry.
    Nothing is passed through, unlike for the conference events. *)
Theorem X8_config_event_from_two_fields (store : Store) (next : object -> value)
        (action action' : object) :
  distinct_symbols all_types = true ->
  obj_get action (KStr "type") = VSym LOAD_CONFIG_ERROR ->
  obj_get action' (KStr "type") = VSym LOAD_CONFIG_ERROR ->
  obj_get action' (KStr "error") = obj_get action (KStr "error") ->
  obj_get action' (KStr "locationURL") = obj_get action (KStr "locationURL") ->
  host_sends (trace (run store next action'))
  = host_sends (trace (run store next action))
  /\ is_throw (outcome (run store next action'))
     = is_throw (outcome (run store next action)).
Proof.
  intros Hd Hty Hty' He Hl.
  destruct (config_error_only CONFERENCE_FAILED CONFERENCE_JOINED CONFERENCE_LEFT
              CONFERENCE_WILL_JOIN CONFERENCE_WILL_LEAVE LOAD_CONFIG_ERROR
              LOAD_CONFIG_ERROR Hd eq_refl) as [Hf Hlc].
  rewrite !(run_host_sends CONFERENCE_FAILED CONFERENCE_JOINED CONFERENCE_LEFT
              CONFERENCE_WILL_JOIN CONFERENCE_WILL_LEAVE LOAD_CONFIG_ERROR
              JITSI_CONFERENCE_URL_KEY toURLString ObjectToString).
  rewrite !run_is_throw.
  rewrite (switch_config_error CONFERENCE_FAILED CONFERENCE_JOINED CONFERENCE_LEFT
             CONFERENCE_WILL_JOIN CONFERENCE_WILL_LEAVE LOAD_CONFIG_ERROR
             JITSI_CONFERENCE_URL_KEY toURLString ObjectToString
             store action LOAD_CONFIG_ERROR Hty Hf Hlc (symbol_eqb_refl _)).
  rewrite (switch_config_error CONFERENCE_FAILED CONFERENCE_JOINED CONFERENCE_LEFT
             CONFERENCE_WILL_JOIN CONFERENCE_WILL_LEAVE LOAD_CONFIG_ERROR
             JITSI_CONFERENCE_URL_KEY toURLString ObjectToString
             store action' LOAD_CONFIG_ERROR Hty' Hf Hlc (symbol_eqb_refl _)).
  rewrite He, Hl. split; reflexivity.
Qed.

(** X10. A [CONFERENCE_FAILED] action whose error is a string is always
    surfaced: a string has no [recoverable] property, so with an app with a
    scope mounted exactly one event goes out, and its [error] is that
    string, unchanged (the empty string included). *)
Theorem X10_string_error_surfaced (store : Store) (scope : value)
        (next : object -> value) (action : object) (s : string) :
  wf_object action = true ->
  mounted store scope ->
  obj_get action (KStr "type") = VSym CONFERENCE_FAILED ->
  obj_get action (KStr "error") = VStr s ->
  exists data,
    run store next action =
    ([NextCall action;
      HostSend (strip_description (sym_toString CONFERENCE_FAILED)) data scope],
     Normal (next action))
    /\ obj_lookup data (KStr "error") = Some (VStr s).
Proof.
  intros Hwf Hm Hty Herr.
  exists (event_data (spread [(KStr "error", VStr s)]
                             (obj_remove (KStr "error") action))).
  split.
  - apply run_one_send; [exact Hm|].
    apply (switch_failed_sends CONFERENCE_FAILED CONFERENCE_JOINED CONFERENCE_LEFT
             CONFERENCE_WILL_JOIN CONFERENCE_WILL_LEAVE LOAD_CONFIG_ERROR
             JITSI_CONFERENCE_URL_KEY toURLString ObjectToString
             store action VUndefined s Hwf Hty).
    + rewrite Herr. reflexivity.
    + reflexivity.
    + rewrite Herr. unfold _toErrorString. simpl.
      destruct (String.eqb_spec s ""); simpl; congruence.
  - rewrite (event_data_lookup JITSI_CONFERENCE_URL_KEY toURLString).
    rewrite failed_argument_lookup by exact Hwf. reflexivity.
Qed.

(** X12. A [CONFERENCE_FAILED] action whose error is truthy and neither a
    string nor an object ([true], a number other than zero, a symbol) makes
    the middleware throw a [TypeError] after [next] has run: no event is
    sent and the result of [next] is not returned, whatever the store. *)
Theorem X12_failed_with_primitive_error (store : Store) (next : object -> value)
        (action : object) :
  is_type (obj_get action (KStr "type")) CONFERENCE_FAILED = true ->
  ToBoolean (obj_get action (KStr "error")) = true ->
  (forall s, obj_get action (KStr "error") <> VStr s) ->
  (forall o, obj_get action (KStr "error") <> VObj o) ->
  run store next action = ([NextCall action], Throw TypeError).
Proof.
  intros Hty Ht Hs Ho.
  rewrite (run_eq CONFERENCE_FAILED CONFERENCE_JOINED CONFERENCE_LEFT
             CONFERENCE_WILL_JOIN CONFERENCE_WILL_LEAVE LOAD_CONFIG_ERROR
             JITSI_CONFERENCE_URL_KEY toURLString ObjectToString).
  rewrite (switch_failed CONFERENCE_FAILED CONFERENCE_JOINED CONFERENCE_LEFT
             CONFERENCE_WILL_JOIN CONFERENCE_WILL_LEAVE LOAD_CONFIG_ERROR
             JITSI_CONFERENCE_URL_KEY toURLString ObjectToString store action Hty).
  destruct (obj_get action (KStr "error")) as [| |b|n|s| |o];
    try discriminate Ht.
  - simpl in Ht. subst b. reflexivity.
  - unfold _toErrorString. rewrite Ht. reflexivity.
  - exfalso. apply (Hs s). reflexivity.
  - reflexivity.
  - exfalso. apply (Ho o). reflexivity.
Qed.

End Further.

(** ** The further properties at concrete actions *)



(** At a configuration failure with and without a field ["kind"]. *)
Lemma X8_config_event_from_two_fields_witness :
  host_sends (trace (Sample.run Sample.LOAD_CONFIG_ERROR
                       (Sample.mounted_store (VStr "room1")) Sample.next
                       (Sample.config_failed_tagged Sample.LOAD_CONFIG_ERROR
                                                    Sample.CONFIG_FETCH_ERROR)))
  = host_sends (trace (Sample.run Sample.LOAD_CONFIG_ERROR
                         (Sample.mounted_store (VStr "room1")) Sample.next
                         (Sample.config_failed Sample.LOAD_CONFIG_ERROR)))
  /\ is_throw (outcome (Sample.run Sample.LOAD_CONFIG_ERROR
                          (Sample.mounted_store (VStr "room1")) Sample.next
                          (Sample.config_failed_tagged Sample.LOAD_CONFIG_ERROR
                                                       Sample.CONFIG_FETCH_ERROR)))
     = is_throw (outcome (Sample.run Sample.LOAD_CONFIG_ERROR
                            (Sample.mounted_store (VStr "room1")) Sample.next
                            (Sample.config_failed Sample.LOAD_CONFIG_ERROR))).
Proof.
  apply (X8_config_event_from_two_fields
           Sample.CONFERENCE_FAILED Sample.CONFERENCE_JOINED Sample.CONFERENCE_LEFT
           Sample.CONFERENCE_WILL_JOIN Sample.CONFERENCE_WILL_LEAVE
           Sample.LOAD_CONFIG_ERROR Sample.JITSI_CONFERENCE_URL_KEY
           Sample.toURLString Sample.ObjectToString
           (Sample.mounted_store (VStr "room1")) Sample.next
           (Sample.config_failed Sample.LOAD_CONFIG_ERROR)
           (Sample.config_failed_tagged Sample.LOAD_CONFIG_ERROR
                                        Sample.CONFIG_FETCH_ERROR)).
  - reflexivity.
  - reflexivity.
  - reflexivity.
  - reflexivity.
  - reflexivity.
Defined.

(** At the action [{ type: CONFERENCE_FAILED, error: "boom", recoverable:
    false, conference }]. *)
Lemma X10_string_error_surfaced_witness :
  exists data,
    Sample.run Sample.LOAD_CONFIG_ERROR (Sample.mounted_store (VStr "room1"))
               Sample.next Sample.failed_in_room
    = ([NextCall Sample.failed_in_room;
        HostSend "CONFERENCE_FAILED" data (VStr "room1")],
       Normal (Sample.next Sample.failed_in_room))
    /\ obj_lookup data (KStr "error") = Some (VStr "boom").
Proof.
  apply (X10_string_error_surfaced
           Sample.CONFERENCE_FAILED Sample.CONFERENCE_JOINED Sample.CONFERENCE_LEFT
           Sample.CONFERENCE_WILL_JOIN Sample.CONFERENCE_WILL_LEAVE
           Sample.LOAD_CONFIG_ERROR Sample.JITSI_CONFERENCE_URL_KEY
           Sample.toURLString Sample.ObjectToString
           (Sample.mounted_store (VStr "room1")) (VStr "room1") Sample.next
           Sample.failed_in_room "boom").
  - reflexivity.
  - exists (VObj [(KStr "app", VObj [(KStr "props",
                    VObj [(KStr "externalAPIScope", VStr "room1")])])]),
           (VObj [(KStr "props", VObj [(KStr "externalAPIScope", VStr "room1")])]),
           (VObj [(KStr "externalAPIScope", VStr "room1")]).
    repeat split.
  - reflexivity.
  - reflexivity.
Defined.

(** At an argument with a conference and no [type]. *)
Lemma X11_conference_event_needs_type_witness :
  _sendConferenceEvent Sample.JITSI_CONFERENCE_URL_KEY Sample.toURLString
                       Sample.ObjectToString
                       (Sample.mounted_store (VStr "room1"))
                       [(KStr "conference", Sample.room)]
  = ([], Throw TypeError).
Proof.
  apply (X11_conference_event_needs_type
           Sample.JITSI_CONFERENCE_URL_KEY Sample.toURLString Sample.ObjectToString
           (Sample.mounted_store (VStr "room1"))
           [(KStr "conference", Sample.room)]).
  reflexivity.
Defined.

(** At the action [{ type: CONFERENCE_FAILED, error: 404 }]. *)
Lemma X12_failed_with_primitive_error_witness :
  Sample.run Sample.LOAD_CONFIG_ERROR (Sample.mounted_store (VStr "room1"))
             Sample.next
             [(KStr "type", VSym Sample.CONFERENCE_FAILED); (KStr "error", VNum 404)]
  = ([NextCall [(KStr "type", VSym Sample.CONFERENCE_FAILED);
                (KStr "error", VNum 404)]],
     Throw TypeError).
Proof.
  apply (X12_failed_with_primitive_error
           Sample.CONFERENCE_FAILED Sample.CONFERENCE_JOINED Sample.CONFERENCE_LEFT
           Sample.CONFERENCE_WILL_JOIN Sample.CONFERENCE_WILL_LEAVE
           Sample.LOAD_CONFIG_ERROR Sample.JITSI_CONFERENCE_URL_KEY
           Sample.toURLString Sample.ObjectToString
           (Sample.mounted_store (VStr "room1")) Sample.next
           [(KStr "type", VSym Sample.CONFERENCE_FAILED); (KStr "error", VNum 404)]).
  - reflexivity.
  - reflexivity.
  - intros s. discriminate.
  - intros o. discriminate.
Defined.

(** ** Some values *)

Example ex_desc_native :
  strip_description "Symbol(CONFERENCE_JOINED)" = "CONFERENCE_JOINED".
Proof. reflexivity. Qed.

Example ex_desc_polyfill :
  strip_description "@@CONFERENCE_JOINED" = "CONFERENCE_JOINED".
Proof. reflexivity. Qed.

Example ex_number : NumberToString (-404) = "-404".
Proof. reflexivity. Qed.
